(** * Harmonic trading robot: pattern detection, zones, confirmations, positions

    A shallow embedding of the Python sources
    [patterns/harmonic_detector.py], [patterns/zone_manager.py],
    [trading/confirmation_system.py], [trading/position_manager.py] and of
    [HarmonicTradingBot._handle_entry_signal] from [main.py].

    Numbers.  Prices, ratios and sizes are binary64 floats in the program;
    here they are exact rationals ([Q]), compared with [==].  Rounding,
    infinities and NaN are outside the model; where the program divides by a
    value that may be zero without a guard, the model writes out what numpy
    does in that case.  Bar indices and counts are [nat], time stamps are [Z]
    (seconds). *)

From Stdlib Require Import String Ascii DecimalString.
From Stdlib Require Import QArith Qabs ZArith List Bool Arith Lia Lqa.
From Stdlib Require Import Sorting.Sorted.
From Stdlib Require Floats.
Import ListNotations.

Set Implicit Arguments.

(** ** Python helpers on rationals *)

Module Py.

(** [a < b] on floats, as a boolean. *)
Definition ltb (a b : Q) : bool := negb (Qle_bool b a).
Definition leb (a b : Q) : bool := Qle_bool a b.
(** [x != 0]. *)
Definition nonzero (x : Q) : bool := negb (Qeq_bool x 0).

(** Python's [max(a, b)] keeps [a] unless [b] is strictly larger; [min(a, b)]
    keeps [a] unless [b] is strictly smaller. *)
Definition max (a b : Q) : Q := if ltb a b then b else a.
Definition min (a b : Q) : Q := if ltb b a then b else a.

(** [min(...)] over a sequence (ValueError on an empty one, which no caller
    passes; the model gives 0 there). *)
Definition min_list (l : list Q) : Q :=
  match l with
  | [] => 0
  | x :: l' => fold_left min l' x
  end.

(** [sum(l)] and [numpy.mean(l)]. *)
Definition sum (l : list Q) : Q := fold_left Qplus l 0.
Definition mean (l : list Q) : Q := sum l / inject_Z (Z.of_nat (length l)).

(** [sum(checks)] on a list of booleans. *)
Definition count_true (l : list bool) : nat := length (filter (fun b => b) l).

(** [range(a, b)]. *)
Definition range (a b : nat) : list nat := seq a (b - a).

(** [all(f(j) for j in range(1, w+1))]. *)
Definition all_upto (w : nat) (f : nat -> bool) : bool := forallb f (range 1 (w + 1)).

End Py.

(** ** patterns/harmonic_detector.py *)

Inductive PivotType : Type := high_t | low_t.

Definition PivotType_eqb (a b : PivotType) : bool :=
  match a, b with
  | high_t, high_t | low_t, low_t => true
  | _, _ => false
  end.

Inductive Direction : Type := bearish | bullish.

(** One row of the OHLCV data frame; [time] is the frame's index entry. *)
Record Candle : Type := mkCandle {
  time : Z;
  open : Q;
  high : Q;
  low : Q;
  close : Q;
  volume : Q
}.

Record Pivot : Type := mkPivot {
  index : nat;
  price : Q;
  type : PivotType;
  timestamp : Z
}.

(** The five points of a pattern, the [points] dictionary. *)
Record Points : Type := mkPoints {
  X : Pivot;
  A : Pivot;
  B : Pivot;
  C : Pivot;
  D : Pivot
}.

(** The [ratios] dictionary; an absent key is [None]. *)
Record Ratios : Type := mkRatios {
  AB_XA : option Q;
  AD_XA : option Q;
  BC_AB : option Q;
  CD_BC : option Q
}.

Record Pattern : Type := mkPattern {
  pattern_type : string;
  points : Points;
  ratios : Ratios;
  confidence : Q;
  direction : Direction;
  completion_time : Z
}.

Module HarmonicPatternDetector.

Definition tolerance : Q := 0.05.

Definition highs (df : list Candle) : list Q := map high df.
Definition lows (df : list Candle) : list Q := map low df.
Definition at_ (l : list Q) (i : nat) : Q := nth i l 0.
Definition time_at (df : list Candle) (i : nat) : Z := nth i (map time df) 0%Z.

Definition high_pivot_test (df : list Candle) (window i : nat) : bool :=
  Py.all_upto window (fun j => Py.leb (at_ (highs df) (i - j)) (at_ (highs df) i)) &&
  Py.all_upto window (fun j => Py.leb (at_ (highs df) (i + j)) (at_ (highs df) i)).

Definition low_pivot_test (df : list Candle) (window i : nat) : bool :=
  Py.all_upto window (fun j => Py.leb (at_ (lows df) i) (at_ (lows df) (i - j))) &&
  Py.all_upto window (fun j => Py.leb (at_ (lows df) i) (at_ (lows df) (i + j))).

(** The pivots appended by one iteration of the scan loop at bar [i]. *)
Definition pivots_at (df : list Candle) (window i : nat) : list Pivot :=
  (if high_pivot_test df window i
   then [mkPivot i (at_ (highs df) i) high_t (time_at df i)] else []) ++
  (if low_pivot_test df window i
   then [mkPivot i (at_ (lows df) i) low_t (time_at df i)] else []).

(** [list.sort(key=lambda x: x['index'])]: a stable sort on the bar index. *)
Fixpoint insert_by_index (p : Pivot) (l : list Pivot) : list Pivot :=
  match l with
  | [] => [p]
  | q :: l' => if index p <=? index q then p :: q :: l' else q :: insert_by_index p l'
  end.

Fixpoint sort_by_index (l : list Pivot) : list Pivot :=
  match l with
  | [] => []
  | p :: l' => insert_by_index p (sort_by_index l')
  end.

Definition _find_pivots (df : list Candle) (window : nat) : list Pivot :=
  sort_by_index
    (flat_map (pivots_at df window) (Py.range window (length df - window))).

Definition bullish_pattern : list PivotType := [low_t; high_t; low_t; high_t; low_t].
Definition bearish_pattern : list PivotType := [high_t; low_t; high_t; low_t; high_t].

Fixpoint types_eqb (l1 l2 : list PivotType) : bool :=
  match l1, l2 with
  | [], [] => true
  | t1 :: l1', t2 :: l2' => PivotType_eqb t1 t2 && types_eqb l1' l2'
  | _, _ => false
  end.

Definition _is_valid_sequence (pts : list Pivot) : bool :=
  let types := map type pts in
  types_eqb types bullish_pattern || types_eqb types bearish_pattern.

Definition _calculate_ratios (x a b c d : Pivot) : Ratios :=
  let xa := Qabs (price a - price x) in
  let ab := Qabs (price b - price a) in
  let bc := Qabs (price c - price b) in
  let cd := Qabs (price d - price c) in
  let ad := Qabs (price d - price a) in
  {| AB_XA := if Py.nonzero xa then Some (ab / xa) else None;
     AD_XA := if Py.nonzero xa then Some (ad / xa) else None;
     BC_AB := if Py.nonzero ab then Some (bc / ab) else None;
     CD_BC := if Py.nonzero bc then Some (cd / bc) else None |}.

Definition _is_ratio_valid (actual expected tol : Q) : bool :=
  Py.leb (Qabs (actual - expected)) tol.

(** [checks.append(...)] guarded by [if key in ratios]. *)
Definition check_if_present (r : option Q) (test : Q -> bool) : list bool :=
  match r with
  | Some v => [test v]
  | None => []
  end.

Definition butterfly_checks (r : Ratios) : list bool :=
  check_if_present (AB_XA r) (fun ab_xa => _is_ratio_valid ab_xa 0.786 tolerance) ++
  check_if_present (BC_AB r)
    (fun bc_ab => Py.leb (0.382 - tolerance) bc_ab && Py.leb bc_ab (0.886 + tolerance)) ++
  check_if_present (CD_BC r)
    (fun cd_bc => Py.leb (1.618 - tolerance) cd_bc && Py.leb cd_bc (2.618 + tolerance)) ++
  check_if_present (AD_XA r)
    (fun ad_xa => Py.leb (1.27 - tolerance) ad_xa && Py.leb ad_xa (1.618 + tolerance)).

Definition _is_butterfly_pattern (r : Ratios) : bool :=
  3 <=? Py.count_true (butterfly_checks r).

Definition fib_levels : list Q := [0.382; 0.5; 0.618; 0.786; 0.886].

Definition score_AB_XA (ab_xa : Q) : Q :=
  Py.max 0 (100 - Qabs (ab_xa - 0.786) * 100).

Definition score_BC_AB (bc_ab : Q) : Q :=
  let min_distance :=
    Py.min_list (map (fun level => Qabs (bc_ab - level)) fib_levels) in
  Py.max 0 (100 - min_distance * 100).

Definition score_CD_BC (cd_bc : Q) : Q :=
  let target := if Py.ltb 2.0 cd_bc then 2.618 else 1.618 in
  Py.max 0 (100 - Qabs (cd_bc - target) * 50).

Definition score_AD_XA (ad_xa : Q) : Q :=
  let target := if Py.ltb 1.4 ad_xa then 1.618 else 1.27 in
  Py.max 0 (100 - Qabs (ad_xa - target) * 100).

Definition score_if_present (r : option Q) (score : Q -> Q) : list Q :=
  match r with
  | Some v => [score v]
  | None => []
  end.

Definition confidence_scores (r : Ratios) : list Q :=
  score_if_present (AB_XA r) score_AB_XA ++
  score_if_present (BC_AB r) score_BC_AB ++
  score_if_present (CD_BC r) score_CD_BC ++
  score_if_present (AD_XA r) score_AD_XA.

Definition _calculate_confidence (r : Ratios) : Q :=
  match confidence_scores r with
  | [] => 0
  | scores => Py.mean scores
  end.

(** The body of the scan loop for one window of five consecutive pivots:
    the pattern appended, if any. *)
Definition scan_window (x a b c d : Pivot) : list Pattern :=
  if negb (_is_valid_sequence [x; a; b; c; d]) then []
  else
    let r := _calculate_ratios x a b c d in
    if _is_butterfly_pattern r then
      [ {| pattern_type := "butterfly";
           points := mkPoints x a b c d;
           ratios := r;
           confidence := _calculate_confidence r;
           direction := match type d with high_t => bearish | low_t => bullish end;
           completion_time := timestamp d |} ]
    else [].

(** [for i in range(len(pivots) - 4): x, a, b, c, d = pivots[i:i+5]]. *)
Fixpoint _find_butterfly_patterns (pivots : list Pivot) : list Pattern :=
  match pivots with
  | x :: rest =>
      match rest with
      | a :: b :: c :: d :: _ => scan_window x a b c d ++ _find_butterfly_patterns rest
      | _ => []
      end
  | [] => []
  end.

Definition detect_patterns (df : list Candle) : list Pattern :=
  if length df <? 50 then []
  else
    let pivots := _find_pivots df 5 in
    if length pivots <? 5 then []
    else _find_butterfly_patterns pivots.

End HarmonicPatternDetector.

(** ** patterns/zone_manager.py *)

(** An ordered dictionary with string keys. *)
Module Dict.

Section WithValue.
Variable V : Type.

Fixpoint get (k : string) (m : list (string * V)) : option V :=
  match m with
  | [] => None
  | (k', v) :: m' => if String.eqb k k' then Some v else get k m'
  end.

(** [m[k] = v]: overwrite in place, or append a new key. *)
Fixpoint set (k : string) (v : V) (m : list (string * V)) : list (string * V) :=
  match m with
  | [] => [(k, v)]
  | (k', v') :: m' =>
      if String.eqb k k' then (k', v) :: m' else (k', v') :: set k v m'
  end.

(** [del m[k]]. *)
Fixpoint del (k : string) (m : list (string * V)) : list (string * V) :=
  match m with
  | [] => []
  | (k', v') :: m' => if String.eqb k k' then m' else (k', v') :: del k m'
  end.

Definition keys (m : list (string * V)) : list string := map fst m.
Definition values (m : list (string * V)) : list V := map snd m.
End WithValue.

End Dict.

Record Zone : Type := mkZone {
  upper : Q;
  lower : Q;
  is_active : bool
}.

(** The [zones] dictionary.  The numbered [fib_*] entries are kept as an
    ordered map; entries that the readers fetch with [.get] are optional. *)
Record Zones : Type := mkZones {
  pattern_id : string * Z;
  zones_direction : option Direction;
  base_price : Q;
  target_price : Q;
  fib : list (string * Q);
  entry_zone : option Zone;
  rebound_zone : option Zone
}.

Record TrendPoint : Type := mkTrendPoint {
  tp_timestamp : Z;
  tp_price : Q;
  tp_index : nat
}.

Definition qnat (n : nat) : Q := inject_Z (Z.of_nat n).

Module ZoneManager.

(** The standard levels with the key [f'fib_{int(level*1000)}'] each one is
    stored under (the product is exact in binary64 for all seven). *)
Definition fib_levels : list (string * Q) :=
  [("fib_236"%string, 0.236); ("fib_382"%string, 0.382); ("fib_500"%string, 0.5); ("fib_618"%string, 0.618);
   ("fib_786"%string, 0.786); ("fib_886"%string, 0.886); ("fib_1000"%string, 1.0)].

Definition price_level (dir : Direction) (d_price dc_distance level : Q) : Q :=
  match dir with
  | bearish => d_price - dc_distance * level
  | bullish => d_price + dc_distance * level
  end.

(** [zones['fib_886']] on a dictionary that holds the key. *)
Definition fib_886 (m : list (string * Q)) : Q :=
  match Dict.get "fib_886" m with
  | Some v => v
  | None => 0
  end.

Definition create_fibonacci_zones (pattern : Pattern) : Zones :=
  let d_point := D (points pattern) in
  let c_point := C (points pattern) in
  let dc_distance := Qabs (price d_point - price c_point) in
  let fibs :=
    fold_left
      (fun zones kl =>
         Dict.set (fst kl)
           (price_level (direction pattern) (price d_point) dc_distance (snd kl)) zones)
      fib_levels [] in
  {| pattern_id := (pattern_type pattern, timestamp d_point);
     zones_direction := Some (direction pattern);
     base_price := price d_point;
     target_price := price c_point;
     fib := fibs;
     entry_zone :=
       Some {| upper := Py.max (price d_point) (fib_886 fibs);
               lower := Py.min (price d_point) (fib_886 fibs);
               is_active := true |};
     rebound_zone :=
       Some {| upper := Py.max (fib_886 fibs) (price c_point);
               lower := Py.min (fib_886 fibs) (price c_point);
               is_active := true |} |}.

(** The pivot type a trendline is drawn through: resistance through highs
    for a bearish pattern, support through lows otherwise. *)
Definition role (dir : Direction) : PivotType :=
  match dir with
  | bearish => high_t
  | bullish => low_t
  end.

Definition trendline_points (pattern : Pattern) : list TrendPoint :=
  let pts := points pattern in
  flat_map
    (fun point =>
       if PivotType_eqb (type point) (role (direction pattern))
       then [mkTrendPoint (timestamp point) (price point) (index point)]
       else [])
    [X pts; B pts; D pts].

Definition _calculate_trendline_slope (pts : list TrendPoint) : Q :=
  if length pts <? 2 then 0
  else
    let x_values := map (fun p => qnat (tp_index p)) pts in
    let y_values := map tp_price pts in
    let n := qnat (length pts) in
    let sum_x := Py.sum x_values in
    let sum_y := Py.sum y_values in
    let sum_xy := Py.sum (map (fun xy => fst xy * snd xy) (combine x_values y_values)) in
    let sum_x2 := Py.sum (map (fun x => x * x) x_values) in
    if Qeq_bool (n * sum_x2 - sum_x * sum_x) 0 then 0
    else (n * sum_xy - sum_x * sum_y) / (n * sum_x2 - sum_x * sum_x).

Record Trendline : Type := mkTrendline {
  slope : Q;
  last_point : TrendPoint;
  projected_price : Q;
  touches : nat;
  is_valid : bool
}.

Definition create_trendline_zones (df : list Candle) (pattern : Pattern)
  : option Trendline :=
  let pts := trendline_points pattern in
  if 2 <=? length pts then
    match rev pts with
    | last :: _ =>
        let m := _calculate_trendline_slope pts in
        let current_index := (Z.of_nat (length df) - 1)%Z in
        Some {| slope := m;
                last_point := last;
                projected_price :=
                  tp_price last
                  + m * inject_Z (current_index - Z.of_nat (tp_index last));
                touches := length pts;
                is_valid := 3 <=? length pts |}
    | [] => None
    end
  else None.

End ZoneManager.

(** ** trading/confirmation_system.py *)

Inductive Side : Type := BUY | SELL.

(** [df.iloc[-1]] (IndexError, here [None], on an empty frame). *)
Definition iloc_last (df : list Candle) : option Candle :=
  match rev df with
  | c :: _ => Some c
  | [] => None
  end.

(** Truth value of an optional float: [None] and [0.0] are false. *)
Definition truthy (x : option Q) : bool :=
  match x with
  | Some v => Py.nonzero v
  | None => false
  end.

Record CandleConfirmation : Type := mkCandleConfirmation {
  confirmed : bool;
  close_price : option Q
}.

Record TrendlineData : Type := mkTrendlineData {
  td_slope : Q;
  td_intercept : Q;
  td_touches : nat;
  td_current_price : Q;
  td_points : list TrendPoint
}.

Record TrendlineConfirmation : Type := mkTrendlineConfirmation {
  break_confirmed : bool;
  tc_touches : nat
}.

Record Confirmations : Type := mkConfirmations {
  candle_5m_confirmation : bool;
  trendline_break : bool;
  zone_break : bool;
  total_score : nat;
  entry_signal : bool;
  entry_direction : option Side;
  entry_price : option Q
}.

Module ConfirmationSystem.

Definition _check_5m_candle_confirmation (df_5m : list Candle) (zones : Zones)
  : CandleConfirmation :=
  if length df_5m <? 2 then mkCandleConfirmation false None
  else
    match iloc_last df_5m with
    | None => mkCandleConfirmation false None
    | Some last_candle =>
        let fib_886 := Dict.get "fib_886" (fib zones) in
        match fib_886, zones_direction zones with
        | Some level, Some dir =>
            if negb (Py.nonzero level) then mkCandleConfirmation false None
            else
              let confirmed :=
                match dir with
                | bearish => Py.ltb (close last_candle) level
                | bullish => Py.ltb level (close last_candle)
                end in
              mkCandleConfirmation confirmed (Some (close last_candle))
        | _, _ => mkCandleConfirmation false None
        end
    end.

Definition trendline_points (pattern : Pattern) : list TrendPoint :=
  let pts := points pattern in
  flat_map
    (fun point =>
       if PivotType_eqb (type point)
            (match direction pattern with bearish => high_t | bullish => low_t end)
       then [mkTrendPoint (timestamp point) (price point) (index point)]
       else [])
    [X pts; B pts; D pts].

Definition _calculate_trendline_equation (pts : list TrendPoint) : Q * Q :=
  let x_values := map (fun p => qnat (tp_index p)) pts in
  let y_values := map tp_price pts in
  let n := qnat (length pts) in
  let sum_x := Py.sum x_values in
  let sum_y := Py.sum y_values in
  let sum_xy := Py.sum (map (fun xy => fst xy * snd xy) (combine x_values y_values)) in
  let sum_x2 := Py.sum (map (fun x => x * x) x_values) in
  if Qeq_bool (n * sum_x2 - sum_x * sum_x) 0 then (0, sum_y / n)
  else
    let slope := (n * sum_xy - sum_x * sum_y) / (n * sum_x2 - sum_x * sum_x) in
    let intercept := (sum_y - slope * sum_x) / n in
    (slope, intercept).

(** One bar touches the line when its extreme is within the relative
    tolerance of the line.  The quotient is a numpy float: on a line price of
    zero it is infinite or NaN and the comparison is false. *)
Definition touches_line (extreme trendline_price tol : Q) : bool :=
  if Py.nonzero trendline_price
  then Py.leb (Qabs (extreme - trendline_price) / trendline_price) tol
  else false.

Fixpoint count_from (i : nat) (df : list Candle) (m b : Q) (dir : Direction) (tol : Q)
  : nat :=
  match df with
  | [] => 0%nat
  | candle :: df' =>
      let trendline_price := m * qnat i + b in
      let extreme := match dir with bearish => high candle | bullish => low candle end in
      ((if touches_line extreme trendline_price tol then 1 else 0)
       + count_from (S i) df' m b dir tol)%nat
  end.

Definition _count_trendline_touches (df : list Candle) (m b : Q) (dir : Direction)
  (tol : Q) : nat :=
  count_from 0 df m b dir tol.

Definition _build_trendline (df : list Candle) (pattern : Pattern)
  : option TrendlineData :=
  let pts := trendline_points pattern in
  if length pts <? 2 then None
  else
    let (m, b) := _calculate_trendline_equation pts in
    let current_index := (Z.of_nat (length df) - 1)%Z in
    Some {| td_slope := m;
            td_intercept := b;
            td_touches := _count_trendline_touches df m b (direction pattern) 0.002;
            td_current_price := m * inject_Z current_index + b;
            td_points := pts |}.

Definition _check_trendline_break (df_5m : list Candle) (trendline_data : TrendlineData)
  (dir : Direction) : bool :=
  if length df_5m <? 1 then false
  else
    match iloc_last df_5m with
    | None => false
    | Some last_candle =>
        match dir with
        | bearish => Py.ltb (td_current_price trendline_data) (close last_candle)
        | bullish => Py.ltb (close last_candle) (td_current_price trendline_data)
        end
    end.

Definition _check_trendline_confirmation (df_1h df_5m : list Candle) (pattern : Pattern)
  (zones : Zones) : TrendlineConfirmation :=
  match _build_trendline df_1h pattern with
  | None => mkTrendlineConfirmation false 0
  | Some trendline_data =>
      if td_touches trendline_data <? 3
      then mkTrendlineConfirmation false (td_touches trendline_data)
      else
        mkTrendlineConfirmation
          (_check_trendline_break df_5m trendline_data (direction pattern))
          (td_touches trendline_data)
  end.

(** Returns the [zone_broken] entry of the result dictionary. *)
Definition _check_zone_break_confirmation (df_5m : list Candle) (zones : Zones) : bool :=
  if length df_5m <? 1 then false
  else
    match iloc_last df_5m with
    | None => false
    | Some last_candle =>
        match entry_zone zones, zones_direction zones with
        | Some zone, Some dir =>
            match dir with
            | bearish => Py.ltb (close last_candle) (lower zone)
            | bullish => Py.ltb (upper zone) (close last_candle)
            end
        | _, _ => false
        end
    end.

Definition check_entry_confirmations (df_1h df_5m : list Candle) (pattern : Pattern)
  (zones : Zones) : Confirmations :=
  let candle_conf := _check_5m_candle_confirmation df_5m zones in
  let score1 := (if confirmed candle_conf then 1 else 0)%nat in
  let price1 := if confirmed candle_conf then close_price candle_conf else None in
  let trendline_conf := _check_trendline_confirmation df_1h df_5m pattern zones in
  let score2 := (if break_confirmed trendline_conf then score1 + 1 else score1)%nat in
  let zone_broken := _check_zone_break_confirmation df_5m zones in
  let score3 := (if zone_broken then score2 + 1 else score2)%nat in
  if (3 <=? score3)%nat then
    {| candle_5m_confirmation := confirmed candle_conf;
       trendline_break := break_confirmed trendline_conf;
       zone_break := zone_broken;
       total_score := score3;
       entry_signal := true;
       entry_direction :=
         Some match direction pattern with bearish => SELL | bullish => BUY end;
       entry_price :=
         if negb (truthy price1) then option_map close (iloc_last df_5m) else price1 |}
  else
    {| candle_5m_confirmation := confirmed candle_conf;
       trendline_break := break_confirmed trendline_conf;
       zone_break := zone_broken;
       total_score := score3;
       entry_signal := false;
       entry_direction := None;
       entry_price := price1 |}.

End ConfirmationSystem.

(** ** Effects: exceptions and the trading venue *)

(** The result of a call that may raise. *)
Inductive Outcome (A : Type) : Type :=
| Ok (a : A)
| Raise (e : string).
Arguments Ok {A} a.
Arguments Raise {A} e.

(** Computations over a state [S] that may raise; the state reached when the
    exception was raised is kept, as in Python. *)
Definition M (S A : Type) : Type := S -> Outcome A * S.

Definition ret {S A : Type} (a : A) : M S A := fun s => (Ok a, s).

Definition raise {S A : Type} (e : string) : M S A := fun s => (Raise e, s).

Definition bind {S A B : Type} (m : M S A) (k : A -> M S B) : M S B :=
  fun s =>
    match m s with
    | (Ok a, s') => k a s'
    | (Raise e, s') => (Raise e, s')
    end.

(** [try: m  except Exception as e: h e]. *)
Definition try_except {S A : Type} (m : M S A) (h : string -> M S A) : M S A :=
  fun s =>
    match m s with
    | (Ok a, s') => (Ok a, s')
    | (Raise e, s') => h e s'
    end.

Notation "x <- m ;; k" := (bind m (fun x => k))
  (at level 61, m at next level, right associativity).

Inductive OrderSide : Type := buy | sell.

(** An order dictionary of the venue: its [id] entry, when it has one. *)
Record Order : Type := mkOrder { order_id : option string }.

(** The collaborator behind [self.exchange]: both connectors implement this
    interface.  Every call may change the venue and may raise. *)
Class Venue (V : Type) : Type := {
  get_available_balance : string -> M V Q;
  calculate_risk_amount : Q -> M V Q;
  calculate_position_size : string -> Q -> Q -> Q -> M V Q;
  place_market_order : string -> OrderSide -> Q -> M V (option Order);
  place_limit_order : string -> OrderSide -> Q -> Q -> M V (option Order);
  place_stop_loss_order : string -> OrderSide -> Q -> Q -> M V (option Order);
  cancel_order : option string -> string -> M V bool;
  get_open_orders : string -> M V (list Order);
  get_current_price : string -> M V Q
}.

(** Why a position left the market, as the exit notification words it. *)
Inductive ExitReason : Type :=
| take_profit_reached (level : nat)
| stop_loss_reached
| manual (reason : string).

(** The messages handed to the notifier, which never raises. *)
Inductive Notification : Type :=
| notify_trade_entry (symbol : string) (dir : option Side)
    (entry quantity stop : Q) (take_profit : option Q)
| notify_trade_exit (symbol : string) (dir : option Side)
    (entry exit quantity pnl : Q) (reason : ExitReason)
| notify_error (error_type description : string).

Inductive Status : Type := ACTIVE | CLOSED.

Definition Status_eqb (a b : Status) : bool :=
  match a, b with
  | ACTIVE, ACTIVE | CLOSED, CLOSED => true
  | _, _ => false
  end.

(** One entry of [position['tp_orders']]; a missing [executed] key reads as
    false. *)
Record TpOrder : Type := mkTpOrder {
  tp_order_id : option string;
  tp_level_price : Q;
  size : Q;
  level : nat;
  executed : bool;
  execution_price : option Q
}.

Record Position : Type := mkPosition {
  id : string;
  symbol : string;
  position_direction : option Side;
  position_entry_price : Q;
  position_size : Q;
  stop_loss : Q;
  take_profits : list Q;
  entry_time : Z;
  position_pattern : Pattern;
  position_zones : Zones;
  status : Status;
  close_reason : option string;
  close_time : option Z;
  entry_order_id : option string;
  stop_order_id : option string;
  tp_orders : list TpOrder
}.

Record Config : Type := mkConfig {
  SYMBOL : string;
  MAX_POSITIONS : Z
}.

(** One string per second of the clock, standing for
    [strftime('%Y%m%d_%H%M%S')] and for the rendering of a time stamp. *)
Definition stamp (t : Z) : string := NilZero.string_of_int (Z.to_int t).

(** A stable insertion sort; [before y x] says that [y] goes strictly before
    [x]. *)
Fixpoint insert_sorted (before : Q -> Q -> bool) (x : Q) (l : list Q) : list Q :=
  match l with
  | [] => [x]
  | y :: l' => if before y x then y :: insert_sorted before x l' else x :: y :: l'
  end.

Definition sort_with (before : Q -> Q -> bool) (l : list Q) : list Q :=
  fold_right (insert_sorted before) [] l.

(** [l.sort()] and [l.sort(reverse=True)]. *)
Definition sort_ascending : list Q -> list Q := sort_with Py.ltb.
Definition sort_descending : list Q -> list Q := sort_with (fun y x => Py.ltb x y).

(** ** trading/position_manager.py *)

Module PositionManager.

(** What the manager reaches besides its registry: the venue, the messages
    sent so far (oldest first) and the current time, [datetime.now()]. *)
Record Env (V : Type) : Type := mkEnv {
  exchange : V;
  telegram : list Notification;
  now : Z
}.

(** The manager: its environment and [self.active_positions], an insertion
    ordered dictionary from position id to position. *)
Record Manager (V : Type) : Type := mkManager {
  env : Env V;
  active_positions : list (string * Position)
}.

Definition _calculate_stop_loss (pattern : Pattern) (zones : Zones) : Q :=
  let d_point := D (points pattern) in
  let buffer := price d_point * 0.0005 in
  match direction pattern with
  | bearish => price d_point + buffer
  | bullish => price d_point - buffer
  end.

(** The targets gathered before sorting: the retracement levels that are
    present, then the price of C. *)
Definition take_profit_targets (pattern : Pattern) (zones : Zones) : list Q :=
  flat_map
    (fun level =>
       match Dict.get level (fib zones) with
       | Some v => [v]
       | None => []
       end)
    ["fib_618"%string; "fib_500"%string; "fib_382"%string]
  ++ [price (C (points pattern))].

Definition _calculate_take_profits (pattern : Pattern) (zones : Zones) : list Q :=
  let targets := take_profit_targets pattern zones in
  let sorted :=
    match direction pattern with
    | bearish => sort_ascending targets
    | bullish => sort_descending targets
    end in
  firstn 3 sorted.

Definition side_of (dir : option Side) : OrderSide :=
  match dir with
  | Some BUY => buy
  | _ => sell
  end.

(** The side of an exit order: [sell] to leave a BUY, [buy] otherwise. *)
Definition opposite_side (dir : option Side) : OrderSide :=
  match dir with
  | Some BUY => sell
  | _ => buy
  end.

(** [(exit - entry) * size] for a BUY, [(entry - exit) * size] otherwise. *)
Definition pnl_of (dir : option Side) (entry exit quantity : Q) : Q :=
  match dir with
  | Some BUY => (exit - entry) * quantity
  | _ => (entry - exit) * quantity
  end.

(** Truth value of an order id: [None] and the empty string are false. *)
Definition id_truthy (oid : option string) : bool :=
  match oid with
  | Some s => negb (String.eqb s "")
  | None => false
  end.

(** [oid not in open_order_ids]. *)
Definition not_in (oid : option string) (open_order_ids : list string) : bool :=
  match oid with
  | Some s => negb (existsb (String.eqb s) open_order_ids)
  | None => true
  end.

(** [[order['id'] for order in open_orders]]: KeyError on an order without
    an id. *)
Fixpoint order_ids (open_orders : list Order) : Outcome (list string) :=
  match open_orders with
  | [] => Ok []
  | o :: rest =>
      match order_id o, order_ids rest with
      | Some i, Ok ids => Ok (i :: ids)
      | None, _ => Raise "KeyError: 'id'"
      | _, Raise e => Raise e
      end
  end.

Section WithVenue.

Context {V : Type} {venue : Venue V}.
Variable config : Config.

(** A venue call made from the manager's environment. *)
Definition call {A : Type} (op : M V A) : M (Env V) A :=
  fun e =>
    let (r, v) := op (exchange e) in
    (r, mkEnv v (telegram e) (now e)).

Definition send (n : Notification) (e : Env V) : Env V :=
  mkEnv (exchange e) (telegram e ++ [n]) (now e).

(** The entry price is optional in the confirmations; the venue's arithmetic
    on a missing one raises TypeError.  Whatever is raised is logged and the
    size is 0. *)
Definition _calculate_position_size (entry_price : option Q) (stop : Q) : M (Env V) Q :=
  try_except
    (total_balance <- call (get_available_balance "USDT") ;;
     risk_amount <- call (calculate_risk_amount total_balance) ;;
     match entry_price with
     | Some entry => call (calculate_position_size (SYMBOL config) risk_amount entry stop)
     | None => raise "TypeError"
     end)
    (fun _ => ret 0).

Definition _place_stop_loss (position : Position) (e : Env V) : Position * Env V :=
  let stop_side := opposite_side (position_direction position) in
  match
    call (place_stop_loss_order (symbol position) stop_side
            (position_size position) (stop_loss position)) e
  with
  | (Ok (Some stop_order), e') =>
      (mkPosition (id position) (symbol position) (position_direction position)
         (position_entry_price position) (position_size position) (stop_loss position)
         (take_profits position) (entry_time position) (position_pattern position)
         (position_zones position) (status position) (close_reason position)
         (close_time position) (entry_order_id position) (order_id stop_order)
         (tp_orders position),
       e')
  | (_, e') => (position, e')
  end.

(** The loop of [_place_take_profits] from leg number [i + 1] on; an
    exception ends it and keeps the legs recorded so far. *)
Fixpoint place_legs (sym : string) (tp_side : OrderSide) (tp_size : Q) (i : nat)
  (prices : list Q) (legs : list TpOrder) (e : Env V) : list TpOrder * Env V :=
  match prices with
  | [] => (legs, e)
  | tp_price :: rest =>
      match call (place_limit_order sym tp_side tp_size tp_price) e with
      | (Ok (Some tp_order), e') =>
          place_legs sym tp_side tp_size (S i) rest
            (legs ++ [mkTpOrder (order_id tp_order) tp_price tp_size (S i) false None]) e'
      | (Ok None, e') => place_legs sym tp_side tp_size (S i) rest legs e'
      | (Raise _, e') => (legs, e')
      end
  end.

Definition with_tp_orders (position : Position) (legs : list TpOrder) : Position :=
  mkPosition (id position) (symbol position) (position_direction position)
    (position_entry_price position) (position_size position) (stop_loss position)
    (take_profits position) (entry_time position) (position_pattern position)
    (position_zones position) (status position) (close_reason position)
    (close_time position) (entry_order_id position) (stop_order_id position) legs.

(** On an empty target list the division raises, which is logged. *)
Definition _place_take_profits (position : Position) (e : Env V) : Position * Env V :=
  match take_profits position with
  | [] => (position, e)
  | prices =>
      let tp_size := position_size position / qnat (length prices) in
      let (legs, e') :=
        place_legs (symbol position) (opposite_side (position_direction position))
          tp_size 0 prices (tp_orders position) e in
      (with_tp_orders position legs, e')
  end.

Definition execute_entry_signal (pattern : Pattern) (zones : Zones)
  (confirmations : Confirmations) (m : Manager V) : bool * Manager V :=
  if negb (entry_signal confirmations) then (false, m)
  else
    let dir := entry_direction confirmations in
    let stop := _calculate_stop_loss pattern zones in
    let tps := _calculate_take_profits pattern zones in
    match _calculate_position_size (entry_price confirmations) stop (env m) with
    | (Raise _, e1) => (false, mkManager e1 (active_positions m))
    | (Ok quantity, e1) =>
        if Py.leb quantity 0 then (false, mkManager e1 (active_positions m))
        else
          match call (place_market_order (SYMBOL config) (side_of dir) quantity) e1 with
          | (Raise err, e2) =>
              (false,
               mkManager (send (notify_error "EXECUTION_ENTREE" err) e2)
                 (active_positions m))
          | (Ok None, e2) =>
              (false,
               mkManager
                 (send (notify_error "ORDRE_ENTREE" "Echec de l'ordre d'entree") e2)
                 (active_positions m))
          | (Ok (Some entry_order), e2) =>
              let position_id :=
                String.append (pattern_type pattern)
                  (String.append "_" (stamp (now e2))) in
              let position :=
                {| id := position_id;
                   symbol := SYMBOL config;
                   position_direction := dir;
                   position_entry_price :=
                     match entry_price confirmations with Some p => p | None => 0 end;
                   position_size := quantity;
                   stop_loss := stop;
                   take_profits := tps;
                   entry_time := now e2;
                   position_pattern := pattern;
                   position_zones := zones;
                   status := ACTIVE;
                   close_reason := None;
                   close_time := None;
                   entry_order_id := order_id entry_order;
                   stop_order_id := None;
                   tp_orders := [] |} in
              let (position1, e3) := _place_stop_loss position e2 in
              let (position2, e4) := _place_take_profits position1 e3 in
              (true,
               mkManager
                 (send
                    (notify_trade_entry (SYMBOL config) dir
                       (position_entry_price position2) quantity stop (hd_error tps))
                    e4)
                 (Dict.set position_id position2 (active_positions m)))
          end
    end.


Definition mark_executed (tp_order : TpOrder) (current_price : Q) : TpOrder :=
  mkTpOrder (tp_order_id tp_order) (tp_level_price tp_order) (size tp_order)
    (level tp_order) true (Some current_price).

Definition _handle_take_profit_hit (position : Position) (tp_order : TpOrder)
  (current_price : Q) (e : Env V) : TpOrder * Env V :=
  let entry := position_entry_price position in
  let tp_price := tp_level_price tp_order in
  let pnl := pnl_of (position_direction position) entry tp_price (size tp_order) in
  (mark_executed tp_order current_price,
   send
     (notify_trade_exit (symbol position) (position_direction position)
        entry tp_price (size tp_order) pnl (take_profit_reached (level tp_order)))
     e).

(** The take-profit loop of [_check_position_status]. *)
Fixpoint check_take_profits (position : Position) (open_order_ids : list string)
  (current_price : Q) (legs : list TpOrder) (e : Env V) : list TpOrder * Env V :=
  match legs with
  | [] => ([], e)
  | tp_order :: rest =>
      let (tp_order', e1) :=
        if not_in (tp_order_id tp_order) open_order_ids
        then _handle_take_profit_hit position tp_order current_price e
        else (tp_order, e) in
      let (rest', e2) := check_take_profits position open_order_ids current_price rest e1 in
      (tp_order' :: rest', e2)
  end.

(** The cancellation loop: one request per leg not marked executed. *)
Fixpoint cancel_legs (sym : string) (legs : list TpOrder) : M (Env V) unit :=
  match legs with
  | [] => ret tt
  | tp_order :: rest =>
      if executed tp_order then cancel_legs sym rest
      else
        _ <- call (cancel_order (tp_order_id tp_order) sym) ;;
        cancel_legs sym rest
  end.

Definition _cancel_remaining_orders (position : Position) (e : Env V) : Env V :=
  snd
    (try_except
       (_ <- cancel_legs (symbol position) (tp_orders position) ;;
        if id_truthy (stop_order_id position)
        then
          _ <- call (cancel_order (stop_order_id position) (symbol position)) ;;
          ret tt
        else ret tt)
       (fun _ => ret tt)
       e).

Definition close_position (position : Position) (reason : string) (t : Z) : Position :=
  mkPosition (id position) (symbol position) (position_direction position)
    (position_entry_price position) (position_size position) (stop_loss position)
    (take_profits position) (entry_time position) (position_pattern position)
    (position_zones position) CLOSED (Some reason) (Some t)
    (entry_order_id position) (stop_order_id position) (tp_orders position).

Definition _handle_stop_loss_hit (position : Position) (current_price : Q) (e : Env V)
  : Position * Env V :=
  let entry := position_entry_price position in
  let stop_price := stop_loss position in
  let quantity := position_size position in
  let pnl := pnl_of (position_direction position) entry stop_price quantity in
  let e1 :=
    send
      (notify_trade_exit (symbol position) (position_direction position)
         entry stop_price quantity pnl stop_loss_reached)
      e in
  let position' := close_position position "STOP_LOSS" (now e1) in
  (position', _cancel_remaining_orders position' e1).

(** Only the three reads at the top can raise; they come before the position
    is touched, so an exception leaves the position as it was. *)
Definition _check_position_status (position : Position) : M (Env V) Position :=
  current_price <- call (get_current_price (symbol position)) ;;
  open_orders <- call (get_open_orders (symbol position)) ;;
  open_order_ids <- (fun e => (order_ids open_orders, e)) ;;
  fun e =>
    let (legs, e1) :=
      check_take_profits position open_order_ids current_price (tp_orders position) e in
    let position1 := with_tp_orders position legs in
    if id_truthy (stop_order_id position1)
       && not_in (stop_order_id position1) open_order_ids
    then
      let (position2, e2) := _handle_stop_loss_hit position1 current_price e1 in
      (Ok position2, e2)
    else (Ok position1, e1).

(** [_update_trailing_stop] is [pass]. *)
Definition _update_trailing_stop (position : Position) : M (Env V) Position :=
  ret position.

(** The body of the monitoring loop for one registered position, with its
    [try ... except Exception]. *)
Definition monitor_position (item : string * Position) (e : Env V)
  : (string * Position) * Env V :=
  match
    try_except
      (position1 <- _check_position_status (snd item) ;;
       _update_trailing_stop position1)
      (fun _ => ret (snd item))
      e
  with
  | (Ok position', e') => ((fst item, position'), e')
  | (Raise _, e') => (item, e')
  end.

Fixpoint monitor_items (items : list (string * Position)) (e : Env V)
  : list (string * Position) * Env V :=
  match items with
  | [] => ([], e)
  | item :: rest =>
      let (item', e1) := monitor_position item e in
      let (rest', e2) := monitor_items rest e1 in
      (item' :: rest', e2)
  end.

Definition monitor_positions (m : Manager V) : Manager V :=
  let (items, e) := monitor_items (active_positions m) (env m) in
  mkManager e items.

Definition get_active_positions_count (m : Manager V) : nat :=
  length
    (filter (fun p => Status_eqb (status p) ACTIVE) (Dict.values (active_positions m))).

(** The test of the cleanup loop against the cutoff date. *)
Definition expired (cutoff_date : Z) (position : Position) : bool :=
  Status_eqb (status position) CLOSED &&
  match close_time position with
  | Some t => (t <? cutoff_date)%Z
  | None => false
  end.

(** [timedelta(days=days)] in seconds. *)
Definition timedelta (days : Z) : Z := (days * 86400)%Z.

Definition cleanup_old_positions (days : Z) (m : Manager V) : Manager V :=
  let cutoff_date := (now (env m) - timedelta days)%Z in
  let positions_to_remove :=
    map fst (filter (fun item => expired cutoff_date (snd item)) (active_positions m)) in
  mkManager (env m)
    (fold_left (fun reg position_id => Dict.del position_id reg)
       positions_to_remove (active_positions m)).

End WithVenue.

End PositionManager.

(** ** main.py: the handling of a confirmed entry signal *)

Module HarmonicTradingBot.

Record Detected : Type := mkDetected {
  detected_pattern : Pattern;
  detected_zones : Zones;
  detection_time : Z;
  processed : bool
}.

Record Bot (V : Type) : Type := mkBot {
  position_manager : PositionManager.Manager V;
  detected_patterns : list (string * Detected)
}.

Definition mark_processed (d : Detected) : Detected :=
  mkDetected (detected_pattern d) (detected_zones d) (detection_time d) true.

Section WithVenue.

Context {V : Type} {venue : Venue V}.
Variable config : Config.

Definition _handle_entry_signal (pattern : Pattern) (zones : Zones)
  (confirmations : Confirmations) (bot : Bot V) : Bot V :=
  let active_positions :=
    PositionManager.get_active_positions_count (position_manager bot) in
  if (MAX_POSITIONS config <=? Z.of_nat active_positions)%Z then bot
  else
    let (success, manager) :=
      PositionManager.execute_entry_signal config pattern zones confirmations
        (position_manager bot) in
    if success then
      let pattern_id :=
        String.append (pattern_type pattern)
          (String.append "_" (stamp (completion_time pattern))) in
      match Dict.get pattern_id (detected_patterns bot) with
      | Some d =>
          mkBot manager (Dict.set pattern_id (mark_processed d) (detected_patterns bot))
      | None => mkBot manager (detected_patterns bot)
      end
    else mkBot manager (detected_patterns bot).

End WithVenue.

End HarmonicTradingBot.

(** ** A paper venue

    A small in-memory venue used to run the manager on concrete inputs: it
    keeps the ids of the resting orders, hands out fresh ids from a counter,
    and is unreachable for the symbol [DOWN]. *)

Module PaperVenue.

Record t : Type := mk {
  resting : list string;
  counter : nat;
  balance : Q;
  last_price : Q
}.

Definition fresh (v : t) : string := stamp (Z.of_nat (counter v)).

Definition rest_order (v : t) : Outcome (option Order) * t :=
  (Ok (Some (mkOrder (Some (fresh v)))),
   mk (resting v ++ [fresh v]) (S (counter v)) (balance v) (last_price v)).

Definition fill_order (v : t) : Outcome (option Order) * t :=
  (Ok (Some (mkOrder (Some (fresh v)))),
   mk (resting v) (S (counter v)) (balance v) (last_price v)).

Definition withdraw (oid : option string) (v : t) : Outcome bool * t :=
  match oid with
  | Some s =>
      (Ok (existsb (String.eqb s) (resting v)),
       mk (filter (fun i => negb (String.eqb s i)) (resting v))
         (counter v) (balance v) (last_price v))
  | None => (Ok false, v)
  end.

Definition reachable (sym : string) : bool := negb (String.eqb sym "DOWN").

#[global] Instance venue : Venue t := {
  get_available_balance := fun _ v => (Ok (balance v), v);
  calculate_risk_amount := fun total v => (Ok (total * (1 / 100)), v);
  calculate_position_size := fun _ risk entry stop v =>
    (Ok (if Py.nonzero (Qabs (entry - stop)) then risk / Qabs (entry - stop) else 0), v);
  place_market_order := fun _ _ _ v => fill_order v;
  place_limit_order := fun _ _ _ _ v => rest_order v;
  place_stop_loss_order := fun _ _ _ _ v => rest_order v;
  cancel_order := fun oid _ v => withdraw oid v;
  get_open_orders := fun sym v =>
    if reachable sym then (Ok (map (fun i => mkOrder (Some i)) (resting v)), v)
    else (Raise "venue unreachable", v);
  get_current_price := fun sym v =>
    if reachable sym then (Ok (last_price v), v) else (Raise "venue unreachable", v)
}.

End PaperVenue.

(** ** The level arithmetic in binary64

    The level price of the zone manager and the number behind a level's key,
    [level*1000], on the program's own floats. *)

Module Binary64.
Import Floats.
#[local] Set Warnings "-inexact-float".

Definition price_level (bear : bool) (d c level : float) : float :=
  let dc_distance := abs (d - c)%float in
  if bear then (d - dc_distance * level)%float else (d + dc_distance * level)%float.

Definition key_number (level : float) : float := (level * 1000)%float.

Definition levels : list float := [0.236; 0.382; 0.5; 0.618; 0.786; 0.886; 1.0]%float.

Definition key_numbers : list float := [236; 382; 500; 618; 786; 886; 1000]%float.

End Binary64.

(** ** Sample data *)

Module Sample.

(** A bearish butterfly: X = 97, A = 87, B = 95, C = 90, D = 100. *)
Definition X1 : Pivot := mkPivot 10 97 high_t 36000.
Definition A1 : Pivot := mkPivot 20 87 low_t 72000.
Definition B1 : Pivot := mkPivot 30 95 high_t 108000.
Definition C1 : Pivot := mkPivot 40 90 low_t 144000.
Definition D1 : Pivot := mkPivot 50 100 high_t 180000.

Definition pattern1 : Pattern :=
  {| pattern_type := "butterfly";
     points := mkPoints X1 A1 B1 C1 D1;
     ratios := HarmonicPatternDetector._calculate_ratios X1 A1 B1 C1 D1;
     confidence :=
       HarmonicPatternDetector._calculate_confidence
         (HarmonicPatternDetector._calculate_ratios X1 A1 B1 C1 D1);
     direction := bearish;
     completion_time := 180000 |}.

Definition zones1 : Zones := ZoneManager.create_fibonacci_zones pattern1.

(** A bearish window whose low C = 110 lies above its high D = 100. *)
Definition X2 : Pivot := mkPivot 10 117 high_t 36000.
Definition A2 : Pivot := mkPivot 20 107 low_t 72000.
Definition B2 : Pivot := mkPivot 30 115 high_t 108000.
Definition C2 : Pivot := mkPivot 40 110 low_t 144000.
Definition D2 : Pivot := mkPivot 50 100 high_t 180000.

Definition pattern2 : Pattern :=
  {| pattern_type := "butterfly";
     points := mkPoints X2 A2 B2 C2 D2;
     ratios := HarmonicPatternDetector._calculate_ratios X2 A2 B2 C2 D2;
     confidence :=
       HarmonicPatternDetector._calculate_confidence
         (HarmonicPatternDetector._calculate_ratios X2 A2 B2 C2 D2);
     direction := bearish;
     completion_time := 180000 |}.

Definition zones2 : Zones := ZoneManager.create_fibonacci_zones pattern2.

(** A flat candle at price [p]. *)
Definition bar (t : Z) (p : Q) : Candle := mkCandle t p p p p 1.

(** A bearish pattern under a falling resistance line: the highs X = 200,
    B = 150 and D = 100 at bars 0, 10 and 20 lie on one line. *)
Definition X3 : Pivot := mkPivot 0 200 high_t 0.
Definition A3 : Pivot := mkPivot 5 120 low_t 18000.
Definition B3 : Pivot := mkPivot 10 150 high_t 36000.
Definition C3 : Pivot := mkPivot 15 90 low_t 54000.
Definition D3 : Pivot := mkPivot 20 100 high_t 72000.

Definition pattern3 : Pattern :=
  {| pattern_type := "butterfly";
     points := mkPoints X3 A3 B3 C3 D3;
     ratios := HarmonicPatternDetector._calculate_ratios X3 A3 B3 C3 D3;
     confidence :=
       HarmonicPatternDetector._calculate_confidence
         (HarmonicPatternDetector._calculate_ratios X3 A3 B3 C3 D3);
     direction := bearish;
     completion_time := 72000 |}.

Definition zones3 : Zones := ZoneManager.create_fibonacci_zones pattern3.

(** Thirty-one hourly bars that touch the line at bars 0, 10 and 20 only. *)
Definition hourly3 : list Candle :=
  map (fun i =>
         if (i =? 0)%nat then bar 0 200
         else if (i =? 10)%nat then bar 36000 150
         else if (i =? 20)%nat then bar 72000 100
         else bar (Z.of_nat i * 3600) 1)
      (seq 0 31).

(** Two 5-minute bars, the last one closing at 80. *)
Definition minutes3 : list Candle := [bar 108000 85; bar 108300 80].

(** The zones of [pattern3] with the entry zone moved down to [60, 70], and
    with the 0.886 level missing. *)
Definition zones3_low_entry : Zones :=
  mkZones (pattern_id zones3) (zones_direction zones3) (base_price zones3)
    (target_price zones3) (fib zones3) (Some (mkZone 70 60 true)) (rebound_zone zones3).

Definition zones3_no_level : Zones :=
  mkZones (pattern_id zones3) (zones_direction zones3) (base_price zones3)
    (target_price zones3) [] (entry_zone zones3) (rebound_zone zones3).

(** Positions for the registry examples. *)
Definition position_of (name sym : string) (st : Status) (closed : option Z)
  (stop : option string) (legs : list TpOrder) : Position :=
  {| id := name;
     symbol := sym;
     position_direction := Some SELL;
     position_entry_price := 80;
     position_size := 4;
     stop_loss := 101;
     take_profits := [60; 70];
     entry_time := 0;
     position_pattern := pattern3;
     position_zones := zones3;
     status := st;
     close_reason := match closed with Some _ => Some "STOP_LOSS"%string | None => None end;
     close_time := closed;
     entry_order_id := Some "1"%string;
     stop_order_id := stop;
     tp_orders := legs |}.

(** An old active position, an old closed one and a recently closed one. *)
Definition registry1 : list (string * Position) :=
  [("old_active"%string, position_of "old_active" "BTCUSDT" ACTIVE None None []);
   ("old_closed"%string, position_of "old_closed" "BTCUSDT" CLOSED (Some 100%Z) None []);
   ("new_closed"%string, position_of "new_closed" "BTCUSDT" CLOSED (Some 999000%Z) None [])].

Definition manager1 : PositionManager.Manager PaperVenue.t :=
  PositionManager.mkManager
    (PositionManager.mkEnv (PaperVenue.mk [] 10 1000 100) [] 1000000) registry1.

(** A position on an unreachable symbol, followed by one whose stop order 7
    and second leg 9 have left the book while its first leg 8 still rests. *)
Definition legs2 : list TpOrder :=
  [mkTpOrder (Some "8"%string) 60 2 1 false None;
   mkTpOrder (Some "9"%string) 70 2 2 false None].

Definition registry2 : list (string * Position) :=
  [("lost"%string, position_of "lost" "DOWN" ACTIVE None (Some "5"%string) []);
   ("stopped"%string,
    position_of "stopped" "BTCUSDT" ACTIVE None (Some "7"%string) legs2)].

Definition env2 : PositionManager.Env PaperVenue.t :=
  PositionManager.mkEnv (PaperVenue.mk ["8"%string] 10 1000 100) [] 5000.

Definition config1 : Config := mkConfig "BTCUSDT" 1.
Definition config3 : Config := mkConfig "BTCUSDT" 3.

Definition confirmations3 : Confirmations :=
  ConfirmationSystem.check_entry_confirmations hourly3 minutes3 pattern3 zones3.

Definition bot1 : HarmonicTradingBot.Bot PaperVenue.t :=
  HarmonicTradingBot.mkBot manager1 [].

End Sample.

(** ** Vocabulary of the specification *)

Module Spec.

(** Bar [i] is a High pivot: its high is at least every high within [window]
    bars on both sides; symmetrically for a Low pivot. *)
Definition is_high_pivot (df : list Candle) (window i : nat) : Prop :=
  forall j, (1 <= j <= window)%nat ->
    high (nth (i - j) df (mkCandle 0 0 0 0 0 0)) <= high (nth i df (mkCandle 0 0 0 0 0 0)) /\
    high (nth (i + j) df (mkCandle 0 0 0 0 0 0)) <= high (nth i df (mkCandle 0 0 0 0 0 0)).

Definition is_low_pivot (df : list Candle) (window i : nat) : Prop :=
  forall j, (1 <= j <= window)%nat ->
    low (nth i df (mkCandle 0 0 0 0 0 0)) <= low (nth (i - j) df (mkCandle 0 0 0 0 0 0)) /\
    low (nth i df (mkCandle 0 0 0 0 0 0)) <= low (nth (i + j) df (mkCandle 0 0 0 0 0 0)).

(** The pivot record of bar [i] for each kind. *)
Definition high_pivot_of (df : list Candle) (i : nat) : Pivot :=
  let c := nth i df (mkCandle 0 0 0 0 0 0) in mkPivot i (high c) high_t (time c).
Definition low_pivot_of (df : list Candle) (i : nat) : Pivot :=
  let c := nth i df (mkCandle 0 0 0 0 0 0) in mkPivot i (low c) low_t (time c).

Definition ordered_by_index (l : list Pivot) : Prop :=
  StronglySorted (fun p q => (index p <= index q)%nat) l.







(** [d] is the distance from [v] to the nearest of [targets]. *)
Definition is_nearest_distance (v : Q) (targets : list Q) (d : Q) : Prop :=
  (exists t, In t targets /\ d == Qabs (v - t)) /\
  (forall t, In t targets -> d <= Qabs (v - t)).

(** [s] is the proximity score of [v]: [max(0, 100 - distance*scale)] with
    the distance taken to the nearest target. *)
Definition is_proximity_score (scale v : Q) (targets : list Q) (s : Q) : Prop :=
  exists d, is_nearest_distance v targets d /\
            ((0 <= 100 - d * scale /\ s == 100 - d * scale) \/
             (100 - d * scale <= 0 /\ s == 0)).

(** [l] goes strictly before [c] in the order of the take-profit list:
    below it for a bearish pattern, above it for a bullish one. *)
Definition strictly_before (dir : Direction) (l c : Q) : Prop :=
  match dir with
  | bearish => l < c
  | bullish => c < l
  end.

(** The order of the take-profit list: ascending for a bearish pattern,
    descending for a bullish one. *)
Definition ordered_for (dir : Direction) (l : list Q) : Prop :=
  match dir with
  | bearish => StronglySorted Qle l
  | bullish => StronglySorted (fun a b => b <= a) l
  end.

(** The venue after one cancel request per id, in order. *)
Definition after_cancels {V : Type} {venue : Venue V} (sym : string)
  (ids : list (option string)) (v : V) : V :=
  fold_left (fun v' oid => snd (cancel_order oid sym v')) ids v.

(** The ids of the legs that are not marked executed. *)
Definition pending_ids (legs : list TpOrder) : list (option string) :=
  map tp_order_id (filter (fun leg => negb (executed leg)) legs).

(** A closed position whose close time is before the cutoff. *)
Definition closed_before (cutoff : Z) (p : Position) : Prop :=
  status p = CLOSED /\ exists t, close_time p = Some t /\ (t < cutoff)%Z.

(** The mean of the scores that are present, 0 when there is none. *)
Fixpoint present (l : list (option Q)) : list Q :=
  match l with
  | [] => []
  | Some s :: l' => s :: present l'
  | None :: l' => present l'
  end.

Definition mean_of_present (l : list (option Q)) : Q :=
  match present l with
  | [] => 0
  | scores => fold_right Qplus 0 scores / inject_Z (Z.of_nat (length scores))
  end.

End Spec.
(** ** More of patterns/harmonic_detector.py and patterns/zone_manager.py *)

(** The dictionary of [get_fibonacci_zones]: the [entry_zone] pair and the
    numbered [level_*] entries, in insertion order. *)
Record LevelZones : Type := mkLevelZones {
  level_map : list (string * Q);
  level_entry_zone : Q * Q
}.

Module DetectorZones.

(** The five other levels with the key [f'level_{int(level*1000)}'] of each. *)
Definition other_levels : list (string * Q) :=
  [("level_236"%string, 0.236); ("level_382"%string, 0.382);
   ("level_500"%string, 0.5); ("level_618"%string, 0.618);
   ("level_786"%string, 0.786)].

Definition get_fibonacci_zones (pattern : Pattern) : LevelZones :=
  let d_point := D (points pattern) in
  let c_point := C (points pattern) in
  let dc_distance := Qabs (price d_point - price c_point) in
  let level_886 :=
    match direction pattern with
    | bearish => price d_point - dc_distance * 0.886
    | bullish => price d_point + dc_distance * 0.886
    end in
  let entry :=
    match direction pattern with
    | bearish => (price d_point, level_886)
    | bullish => (level_886, price d_point)
    end in
  {| level_map :=
       fold_left
         (fun zones kl =>
            Dict.set (fst kl)
              (match direction pattern with
               | bearish => price d_point - dc_distance * snd kl
               | bullish => price d_point + dc_distance * snd kl
               end)
              zones)
         other_levels [("level_886"%string, level_886)];
     level_entry_zone := entry |}.

End DetectorZones.

(** The result of [check_zone_breach]. *)
Record Breaches : Type := mkBreaches {
  entry_zone_breach : bool;
  trendline_breach : bool;
  fib_886_breach : bool;
  confirmation_level : nat
}.

(** One entry of [ZoneManager.active_zones]; both keys may be absent. *)
Record ZoneEntry : Type := mkZoneEntry {
  zone_status : option string;
  last_update : option Z
}.

Module ZoneManagerMore.

Definition check_zone_breach (current_price : Q) (zones : Zones) (timeframe_data : list Candle)
  : Breaches :=
  let inside :=
    match entry_zone zones with
    | Some zone =>
        is_active zone && (Py.leb (lower zone) current_price
                           && Py.leb current_price (upper zone))
    | None => false
    end in
  let near :=
    match Dict.get "fib_886" (fib zones) with
    | Some fib_886 =>
        Py.nonzero fib_886 &&
        Py.leb (Qabs (current_price - fib_886)) (Qabs (fib_886 * 0.001))
    | None => false
    end in
  {| entry_zone_breach := inside;
     trendline_breach := false;
     fib_886_breach := near;
     confirmation_level := ((if inside then 1 else 0) + (if near then 1 else 0))%nat |}.

Definition check_candle_confirmation (df : list Candle) (zones : Zones) : bool :=
  if (length df <? 2)%nat then false
  else
    match iloc_last df with
    | None => false
    | Some last_candle =>
        match Dict.get "fib_886" (fib zones) with
        | Some fib_886 =>
            if negb (Py.nonzero fib_886) then false
            else
              match zones_direction zones with
              | Some bearish => Py.ltb (close last_candle) fib_886
              | _ => Py.ltb fib_886 (close last_candle)
              end
        | None => false
        end
    end.

(** The targets gathered by [get_rebound_targets] before sorting. *)
Definition rebound_levels (zones : Zones) : list Q :=
  flat_map
    (fun key =>
       match Dict.get key (fib zones) with
       | Some v => [v]
       | None => []
       end)
    ["fib_618"%string; "fib_500"%string; "fib_382"%string; "fib_236"%string]
  ++ [target_price zones].

Definition get_rebound_targets (zones : Zones) : list Q :=
  match zones_direction zones with
  | Some bearish => sort_descending (rebound_levels zones)
  | _ => sort_ascending (rebound_levels zones)
  end.

(** [update_zone_status] at time [now]. *)
Definition update_zone_status (now : Z) (zone_id status : string)
  (active_zones : list (string * ZoneEntry)) : list (string * ZoneEntry) :=
  match Dict.get zone_id active_zones with
  | Some _ => Dict.set zone_id (mkZoneEntry (Some status) (Some now)) active_zones
  | None => active_zones
  end.

(** [age > max_age_hours] for an age of [now - t] seconds, in hours. *)
Definition older_than (now : Z) (max_age_hours : Z) (t : Z) : bool :=
  Py.ltb (inject_Z max_age_hours) (inject_Z (now - t) / 3600).

Definition zone_too_old (now max_age_hours : Z) (zone_data : ZoneEntry) : bool :=
  match last_update zone_data with
  | Some t => older_than now max_age_hours t
  | None => false
  end.

Definition cleanup_old_zones (now : Z) (max_age_hours : Z)
  (active_zones : list (string * ZoneEntry)) : list (string * ZoneEntry) :=
  let zones_to_remove :=
    map fst (filter (fun item => zone_too_old now max_age_hours (snd item)) active_zones) in
  fold_left (fun zones zone_id => Dict.del zone_id zones) zones_to_remove active_zones.

End ZoneManagerMore.

(** ** More of trading/confirmation_system.py *)

Module ConfirmationSystemMore.

Definition get_stop_loss_level (pattern : Pattern) (zones : Zones) (buffer_pips : Z) : Q :=
  let d_point := D (points pattern) in
  let pip_value := price d_point * 0.0001 * inject_Z buffer_pips in
  match direction pattern with
  | bearish => price d_point + pip_value
  | bullish => price d_point - pip_value
  end.

Definition take_profit_targets (pattern : Pattern) (zones : Zones) : list Q :=
  flat_map
    (fun key =>
       match Dict.get key (fib zones) with
       | Some v => [v]
       | None => []
       end)
    ["fib_618"%string; "fib_500"%string; "fib_382"%string; "fib_236"%string]
  ++ [price (C (points pattern))].

Definition get_take_profit_levels (pattern : Pattern) (zones : Zones) : list Q :=
  let targets := take_profit_targets pattern zones in
  firstn 3
    match direction pattern with
    | bearish => sort_ascending targets
    | bullish => sort_descending targets
    end.

End ConfirmationSystemMore.

(** ** More of trading/position_manager.py *)

Module PositionManagerMore.
Import PositionManager.

Section WithVenue.

Context {V : Type} {venue : Venue V}.

(** The market close after the remaining orders are cancelled; whatever is
    raised is logged and leaves the position as it is. *)
Definition _force_close_position (position : Position) (reason : string) (e : Env V)
  : Position * Env V :=
  let e1 := _cancel_remaining_orders position e in
  let close_side := opposite_side (position_direction position) in
  match
    call (place_market_order (symbol position) close_side (position_size position)) e1
  with
  | (Ok (Some close_order), e2) =>
      match call (get_current_price (symbol position)) e2 with
      | (Ok current_price, e3) =>
          let entry := position_entry_price position in
          let pnl :=
            pnl_of (position_direction position) entry current_price
              (position_size position) in
          let e4 :=
            send
              (notify_trade_exit (symbol position) (position_direction position)
                 entry current_price (position_size position) pnl (manual reason))
              e3 in
          (close_position position reason (now e4), e4)
      | (Raise _, e3) => (position, e3)
      end
  | (_, e2) => (position, e2)
  end.

Fixpoint close_items (reason : string) (items : list (string * Position)) (e : Env V)
  : list (string * Position) * Env V :=
  match items with
  | [] => ([], e)
  | (position_id, position) :: rest =>
      let (position', e1) :=
        if Status_eqb (status position) ACTIVE
        then _force_close_position position reason e
        else (position, e) in
      let (rest', e2) := close_items reason rest e1 in
      ((position_id, position') :: rest', e2)
  end.

Definition close_all_positions (reason : string) (m : Manager V) : Manager V :=
  let (items, e) := close_items reason (active_positions m) (env m) in
  mkManager e items.

End WithVenue.

End PositionManagerMore.

(** ** More of main.py: pattern processing and the daily cleanup *)

(** The messages of the robot's own notifier. *)
Inductive RobotNotification : Type :=
| notify_pattern_detected (pattern_type symbol : string) (d_price conf : Q)
| notify_entry_zone (symbol : string) (level_price : Q) (side : Side).

Module HarmonicTradingBotMore.
Import HarmonicTradingBot.

(** The robot: the bot state and the messages its own notifier has sent. *)
Record Robot (V : Type) : Type := mkRobot {
  robot_bot : Bot V;
  robot_telegram : list RobotNotification
}.

Definition pattern_key (pattern : Pattern) : string :=
  String.append (pattern_type pattern)
    (String.append "_" (stamp (completion_time pattern))).

Section WithVenue.

Context {V : Type} {venue : Venue V}.
Variable config : Config.

Definition _process_pattern (pattern : Pattern) (df_1h df_5m : list Candle)
  (r : Robot V) : Robot V :=
  let pattern_id := pattern_key pattern in
  match Dict.get pattern_id (detected_patterns (robot_bot r)) with
  | Some _ => r
  | None =>
      let zones := ZoneManager.create_fibonacci_zones pattern in
      let sent1 :=
        robot_telegram r ++
        [notify_pattern_detected (pattern_type pattern) (SYMBOL config)
           (price (D (points pattern))) (confidence pattern)] in
      let confirmations :=
        ConfirmationSystem.check_entry_confirmations df_1h df_5m pattern zones in
      let bot1 :=
        mkBot (position_manager (robot_bot r))
          (Dict.set pattern_id
             (mkDetected pattern zones
                (PositionManager.now (PositionManager.env (position_manager (robot_bot r))))
                false)
             (detected_patterns (robot_bot r))) in
      if entry_signal confirmations then
        mkRobot (_handle_entry_signal config pattern zones confirmations bot1) sent1
      else
        mkRobot bot1
          (sent1 ++
           [notify_entry_zone (SYMBOL config)
              (match Dict.get "fib_886" (fib zones) with Some v => v | None => 0 end)
              (match direction pattern with bullish => BUY | bearish => SELL end)])
  end.

(** The loop of [analyze_market] over the detected patterns, once the two
    frames are fetched. *)
Definition process_patterns (patterns : list Pattern) (df_1h df_5m : list Candle)
  (r : Robot V) : Robot V :=
  fold_left (fun r' pattern => _process_pattern pattern df_1h df_5m r') patterns r.

(** [analyze_market] on the two frames the venue returned: nothing is done on
    an empty frame. *)
Definition analyze_frames (df_1h df_5m : list Candle) (r : Robot V) : Robot V :=
  match df_1h, df_5m with
  | [], _ | _, [] => r
  | _, _ =>
      process_patterns (HarmonicPatternDetector.detect_patterns df_1h) df_1h df_5m r
  end.

Definition pattern_too_old (now max_age_hours : Z) (d : Detected) : bool :=
  ZoneManagerMore.older_than now max_age_hours (detection_time d).

Definition _cleanup_old_patterns (max_age_hours : Z) (b : Bot V) : Bot V :=
  let now := PositionManager.now (PositionManager.env (position_manager b)) in
  let patterns_to_remove :=
    map fst
      (filter (fun item => pattern_too_old now max_age_hours (snd item))
         (detected_patterns b)) in
  mkBot (position_manager b)
    (fold_left (fun reg pattern_id => Dict.del pattern_id reg)
       patterns_to_remove (detected_patterns b)).

End WithVenue.

End HarmonicTradingBotMore.

(** * Properties *)

Unset Implicit Arguments.

(** ** Python helpers *)

Lemma leb_le (a b : Q) : Py.leb a b = true <-> a <= b.
Proof. unfold Py.leb. apply Qle_bool_iff. Qed.

Lemma ltb_lt (a b : Q) : Py.ltb a b = true <-> a < b.
Proof.
  unfold Py.ltb. rewrite negb_true_iff.
  destruct (Qle_bool b a) eqn:E.
  - apply Qle_bool_iff in E. split; [discriminate | intro H; exfalso; lra].
  - split; [intros _ | reflexivity].
    apply Qnot_le_lt. intro H. apply Qle_bool_iff in H. congruence.
Qed.

Lemma ltb_ge (a b : Q) : Py.ltb a b = false <-> b <= a.
Proof.
  unfold Py.ltb. rewrite negb_false_iff. apply Qle_bool_iff.
Qed.



Lemma all_upto_spec (w : nat) (f : nat -> bool) :
  Py.all_upto w f = true <-> forall j, (1 <= j <= w)%nat -> f j = true.
Proof.
  unfold Py.all_upto, Py.range. rewrite forallb_forall.
  split; intros H j Hj; apply H.
  - apply in_seq. lia.
  - apply in_seq in Hj. lia.
Qed.

(** ** The pivot scan *)

Module PivotScan.
Import HarmonicPatternDetector.

Lemma at_highs (df : list Candle) (i : nat) :
  at_ (highs df) i = high (nth i df (mkCandle 0 0 0 0 0 0)).
Proof. unfold at_, highs. apply (map_nth high df (mkCandle 0 0 0 0 0 0) i). Qed.

Lemma at_lows (df : list Candle) (i : nat) :
  at_ (lows df) i = low (nth i df (mkCandle 0 0 0 0 0 0)).
Proof. unfold at_, lows. apply (map_nth low df (mkCandle 0 0 0 0 0 0) i). Qed.

Lemma time_at_nth (df : list Candle) (i : nat) :
  time_at df i = time (nth i df (mkCandle 0 0 0 0 0 0)).
Proof. unfold time_at. apply (map_nth time df (mkCandle 0 0 0 0 0 0) i). Qed.

Lemma high_pivot_test_spec (df : list Candle) (w i : nat) :
  high_pivot_test df w i = true <-> Spec.is_high_pivot df w i.
Proof.
  unfold high_pivot_test, Spec.is_high_pivot.
  rewrite andb_true_iff, !all_upto_spec.
  split.
  - intros [H1 H2] j Hj. rewrite <- !at_highs.
    split; apply leb_le; [apply H1 | apply H2]; exact Hj.
  - intros H. split; intros j Hj; apply leb_le; rewrite !at_highs; apply H; exact Hj.
Qed.

Lemma low_pivot_test_spec (df : list Candle) (w i : nat) :
  low_pivot_test df w i = true <-> Spec.is_low_pivot df w i.
Proof.
  unfold low_pivot_test, Spec.is_low_pivot.
  rewrite andb_true_iff, !all_upto_spec.
  split.
  - intros [H1 H2] j Hj. rewrite <- !at_lows.
    split; apply leb_le; [apply H1 | apply H2]; exact Hj.
  - intros H. split; intros j Hj; apply leb_le; rewrite !at_lows; apply H; exact Hj.
Qed.

Lemma in_pivots_at (df : list Candle) (w i : nat) (p : Pivot) :
  In p (pivots_at df w i) <->
  (Spec.is_high_pivot df w i /\ p = Spec.high_pivot_of df i) \/
  (Spec.is_low_pivot df w i /\ p = Spec.low_pivot_of df i).
Proof.
  unfold pivots_at, Spec.high_pivot_of, Spec.low_pivot_of.
  rewrite in_app_iff, <- high_pivot_test_spec, <- low_pivot_test_spec.
  rewrite at_highs, at_lows, time_at_nth.
  destruct (high_pivot_test df w i), (low_pivot_test df w i); simpl;
    intuition (try discriminate; auto).
Qed.

Lemma pivots_at_index (df : list Candle) (w i : nat) (p : Pivot) :
  In p (pivots_at df w i) -> index p = i.
Proof.
  rewrite in_pivots_at. intros [[_ ->] | [_ ->]]; reflexivity.
Qed.

Lemma strongly_sorted_app (R : Pivot -> Pivot -> Prop) (l1 l2 : list Pivot) :
  StronglySorted R l1 -> StronglySorted R l2 ->
  (forall x y, In x l1 -> In y l2 -> R x y) ->
  StronglySorted R (l1 ++ l2).
Proof.
  induction l1 as [| a l1 IH]; intros H1 H2 H12; simpl; [exact H2 |].
  inversion H1 as [| ? ? Hs Hall]; subst.
  constructor.
  - apply IH; [exact Hs | exact H2 | intros x y Hx Hy; apply H12; simpl; auto].
  - apply Forall_app. split; [exact Hall |].
    apply Forall_forall. intros y Hy. apply H12; simpl; auto.
Qed.

Lemma pivots_at_sorted (df : list Candle) (w i : nat) :
  Spec.ordered_by_index (pivots_at df w i).
Proof.
  unfold Spec.ordered_by_index, pivots_at.
  destruct (high_pivot_test df w i), (low_pivot_test df w i); simpl;
    repeat constructor; simpl; lia.
Qed.

(** The list built by the scan loop is already in index order. *)
Lemma scan_sorted (df : list Candle) (w a n : nat) :
  Spec.ordered_by_index (flat_map (pivots_at df w) (seq a n)).
Proof.
  revert a. induction n as [| n IH]; intro a; simpl.
  - constructor.
  - apply strongly_sorted_app; [apply pivots_at_sorted | apply IH |].
    intros x y Hx Hy. apply pivots_at_index in Hx.
    apply in_flat_map in Hy. destruct Hy as [k [Hk Hy]].
    apply pivots_at_index in Hy. apply in_seq in Hk. lia.
Qed.

Lemma insert_sorted_head (p : Pivot) (l : list Pivot) :
  Forall (fun q => (index p <= index q)%nat) l -> insert_by_index p l = p :: l.
Proof.
  intros H. destruct l as [| q l]; simpl; [reflexivity |].
  inversion H; subst.
  destruct (index p <=? index q) eqn:E; [reflexivity |].
  apply Nat.leb_gt in E. lia.
Qed.

(** A stable sort leaves an ordered list as it is. *)
Lemma sort_by_index_sorted (l : list Pivot) :
  Spec.ordered_by_index l -> sort_by_index l = l.
Proof.
  induction 1 as [| p l Hs IH Hall]; simpl; [reflexivity |].
  rewrite IH. apply insert_sorted_head. exact Hall.
Qed.

Lemma find_pivots_scan (df : list Candle) (w : nat) :
  _find_pivots df w =
  flat_map (pivots_at df w) (Py.range w (length df - w)).
Proof.
  unfold _find_pivots. apply sort_by_index_sorted. apply scan_sorted.
Qed.

(** C9. A bar [i] is reported as a High pivot exactly when it is at least
    [window] bars away from both ends of the series and its high is greater
    than or equal to every high within [window] bars on both sides, and as a
    Low pivot under the symmetric condition on lows (so a tie keeps the
    status, and one bar can carry both); nothing else is reported; the result
    is ordered by bar index; and a series shorter than [2*window+1] bars gives
    the empty result. *)
Theorem find_pivots_spec (df : list Candle) (window : nat) :
  (forall p,
     In p (_find_pivots df window) <->
     exists i, (window <= i /\ i + window < length df)%nat /\
       ((Spec.is_high_pivot df window i /\ p = Spec.high_pivot_of df i) \/
        (Spec.is_low_pivot df window i /\ p = Spec.low_pivot_of df i))) /\
  Spec.ordered_by_index (_find_pivots df window) /\
  ((length df < 2 * window + 1)%nat -> _find_pivots df window = []).
Proof.
  rewrite find_pivots_scan. split; [| split].
  - intro p. rewrite in_flat_map. unfold Py.range.
    split.
    + intros [i [Hi Hp]]. exists i. apply in_seq in Hi.
      split; [lia | apply in_pivots_at; exact Hp].
    + intros [i [Hi Hp]]. exists i.
      split; [apply in_seq; lia | apply in_pivots_at; exact Hp].
  - apply scan_sorted.
  - intro H. unfold Py.range.
    replace (length df - window - window)%nat with 0%nat by lia. reflexivity.
Qed.

End PivotScan.

(** A three-bar series is too short for a window of two. *)
Lemma find_pivots_spec_witness :
  (length [mkCandle 0 1 2 1 1 0; mkCandle 1 1 3 1 2 0; mkCandle 2 2 2 1 1 0]
   < 2 * 2 + 1)%nat /\
  HarmonicPatternDetector._find_pivots
    [mkCandle 0 1 2 1 1 0; mkCandle 1 1 3 1 2 0; mkCandle 2 2 2 1 1 0] 2 = [].
Proof.
  split; [simpl; lia |].
  apply (proj2 (proj2 (PivotScan.find_pivots_spec
    [mkCandle 0 1 2 1 1 0; mkCandle 1 1 3 1 2 0; mkCandle 2 2 2 1 1 0] 2))).
  simpl; lia.
Defined.

(** With a window of one the middle bar of a peak is a High pivot. *)
Example find_pivots_peak :
  HarmonicPatternDetector._find_pivots
    [mkCandle 0 1 2 1 1 0; mkCandle 1 2 3 2 2 0; mkCandle 2 2 2 1 1 0] 1
  = [mkPivot 1 3 high_t 1].
Proof. reflexivity. Qed.

(** In flat data every evaluated bar is both a High and a Low pivot, the
    High one first. *)
Example find_pivots_flat :
  HarmonicPatternDetector._find_pivots
    [mkCandle 0 5 5 5 5 0; mkCandle 1 5 5 5 5 0; mkCandle 2 5 5 5 5 0] 1
  = [mkPivot 1 5 high_t 1; mkPivot 1 5 low_t 1].
Proof. reflexivity. Qed.
(** ** Ratios and the butterfly template *)

Module Butterfly.
Import HarmonicPatternDetector.







Lemma in_scan_window (x a b c d : Pivot) (p : Pattern) :
  In p (scan_window x a b c d) <->
  _is_valid_sequence [x; a; b; c; d] = true /\
  _is_butterfly_pattern (_calculate_ratios x a b c d) = true /\
  p = {| pattern_type := "butterfly";
         points := mkPoints x a b c d;
         ratios := _calculate_ratios x a b c d;
         confidence := _calculate_confidence (_calculate_ratios x a b c d);
         direction := match type d with high_t => bearish | low_t => bullish end;
         completion_time := timestamp d |}.
Proof.
  unfold scan_window.
  destruct (_is_valid_sequence [x; a; b; c; d]); simpl;
    [| intuition discriminate].
  destruct (_is_butterfly_pattern (_calculate_ratios x a b c d)); simpl;
    intuition (try discriminate; auto).
Qed.

(** The scan visits exactly the windows of five consecutive pivots. *)
Lemma in_find_butterfly (l : list Pivot) (p : Pattern) :
  In p (_find_butterfly_patterns l) <->
  exists pre x a b c d post,
    l = pre ++ x :: a :: b :: c :: d :: post /\ In p (scan_window x a b c d).
Proof.
  induction l as [| y rest IH].
  - simpl. split; [tauto |].
    intros (pre & x & a & b & c & d & post & H & _).
    destruct pre; discriminate.
  - cbn [_find_butterfly_patterns]. split.
    + destruct rest as [| a' [| b' [| c' [| d' t]]]]; try (simpl; tauto).
      rewrite in_app_iff. intros [H | H].
      * exists [], y, a', b', c', d', t. split; [reflexivity | exact H].
      * apply IH in H. destruct H as (pre & x & a & b & c & d & post & E & H).
        exists (y :: pre), x, a, b, c, d, post. split; [| exact H].
        simpl. rewrite <- E. reflexivity.
    + intros (pre & x & a & b & c & d & post & E & H).
      destruct pre as [| y' pre].
      * simpl in E. injection E as -> ->. apply in_app_iff. left. exact H.
      * simpl in E. injection E as -> E.
        assert (Hin : In p (_find_butterfly_patterns rest)).
        { apply IH. exists pre, x, a, b, c, d, post. split; [exact E | exact H]. }
        assert (Hlen : (5 <= length rest)%nat).
        { rewrite E, length_app. simpl. lia. }
        destruct rest as [| a' [| b' [| c' [| d' t]]]]; simpl in Hlen; try lia.
        apply in_app_iff. right. exact Hin.
Qed.


End Butterfly.
(** ** Confidence *)

Module Confidence.
Import HarmonicPatternDetector.

Lemma Qabs_cases (x : Q) : (0 <= x /\ Qabs x == x) \/ (x <= 0 /\ Qabs x == - x).
Proof.
  destruct (Qlt_le_dec x 0) as [H | H].
  - right. split; [lra | apply Qabs_neg; lra].
  - left. split; [exact H | apply Qabs_pos; exact H].
Qed.

Lemma max0_cases (x : Q) :
  (0 <= x /\ Py.max 0 x == x) \/ (x <= 0 /\ Py.max 0 x == 0).
Proof.
  unfold Py.max. destruct (Py.ltb 0 x) eqn:E.
  - apply ltb_lt in E. left. split; [lra | reflexivity].
  - apply ltb_ge in E. right. split; [exact E | reflexivity].
Qed.

Lemma min_cases (a b : Q) :
  (Py.min a b = a \/ Py.min a b = b) /\ Py.min a b <= a /\ Py.min a b <= b.
Proof.
  unfold Py.min. destruct (Py.ltb b a) eqn:E.
  - apply ltb_lt in E. repeat split; [right; reflexivity | lra | lra].
  - apply ltb_ge in E. repeat split; [left; reflexivity | lra | lra].
Qed.

Lemma fold_min_least (l : list Q) (x : Q) :
  In (fold_left Py.min l x) (x :: l) /\
  forall t, In t (x :: l) -> fold_left Py.min l x <= t.
Proof.
  revert x. induction l as [| y l IH]; intro x; simpl.
  - split; [left; reflexivity | intros t [<- | []]; lra].
  - destruct (IH (Py.min x y)) as [Hin Hle].
    destruct (min_cases x y) as [Hc [Hx Hy]].
    split.
    + destruct Hin as [Hin | Hin]; [| right; right; exact Hin].
      destruct Hc as [Hc | Hc]; [left | right; left];
        (etransitivity; [symmetry; exact Hc | exact Hin]).
    + intros t [<- | [<- | Ht]].
      * apply Qle_trans with (Py.min x y); [apply Hle; left; reflexivity | exact Hx].
      * apply Qle_trans with (Py.min x y); [apply Hle; left; reflexivity | exact Hy].
      * apply Hle. right. exact Ht.
Qed.

Lemma proximity (scale v d : Q) (targets : list Q) :
  Spec.is_nearest_distance v targets d ->
  Spec.is_proximity_score scale v targets (Py.max 0 (100 - d * scale)).
Proof.
  intro Hd. exists d. split; [exact Hd |].
  destruct (max0_cases (100 - d * scale)) as [[H E] | [H E]]; [left | right]; tauto.
Qed.

Lemma nearest_single (v t : Q) : Spec.is_nearest_distance v [t] (Qabs (v - t)).
Proof.
  split.
  - exists t. split; [left; reflexivity | reflexivity].
  - intros t' [<- | []]. lra.
Qed.

Lemma nearest_fib (v : Q) :
  Spec.is_nearest_distance v fib_levels
    (Py.min_list (map (fun level => Qabs (v - level)) fib_levels)).
Proof.
  unfold Py.min_list, fib_levels. cbn [map].
  match goal with |- context [fold_left Py.min ?l ?x] =>
    destruct (fold_min_least l x) as [Hin Hle];
    set (m := fold_left Py.min l x) in *
  end.
  split.
  - cbn [In] in Hin.
    destruct Hin as [H | [H | [H | [H | [H | []]]]]]; rewrite <- H;
      eexists; (split; [| reflexivity]); cbn [In]; tauto.
  - intros t Ht. apply Hle. cbn [In] in Ht |- *.
    destruct Ht as [H | [H | [H | [H | [H | []]]]]]; subst t; tauto.
Qed.

Lemma nearest_CD (v : Q) :
  v <= 2.0 \/ 2.118 <= v ->
  Spec.is_nearest_distance v [1.618; 2.618]
    (Qabs (v - (if Py.ltb 2.0 v then 2.618 else 1.618))).
Proof.
  intros Hv. destruct (Py.ltb 2.0 v) eqn:E.
  - apply ltb_lt in E. split.
    + exists 2.618. split; [cbn [In]; tauto | reflexivity].
    + intros t [<- | [<- | []]]; [| lra].
      destruct (Qabs_cases (v - 2.618)) as [[? E1] | [? E1]];
      destruct (Qabs_cases (v - 1.618)) as [[? E2] | [? E2]];
        rewrite E1, E2; lra.
  - apply ltb_ge in E. split.
    + exists 1.618. split; [cbn [In]; tauto | reflexivity].
    + intros t [<- | [<- | []]]; [lra |].
      destruct (Qabs_cases (v - 2.618)) as [[? E1] | [? E1]];
      destruct (Qabs_cases (v - 1.618)) as [[? E2] | [? E2]];
        rewrite E1, E2; lra.
Qed.

Lemma nearest_AD (v : Q) :
  v <= 1.4 \/ 1.444 <= v ->
  Spec.is_nearest_distance v [1.27; 1.618]
    (Qabs (v - (if Py.ltb 1.4 v then 1.618 else 1.27))).
Proof.
  intros Hv. destruct (Py.ltb 1.4 v) eqn:E.
  - apply ltb_lt in E. split.
    + exists 1.618. split; [cbn [In]; tauto | reflexivity].
    + intros t [<- | [<- | []]]; [| lra].
      destruct (Qabs_cases (v - 1.618)) as [[? E1] | [? E1]];
      destruct (Qabs_cases (v - 1.27)) as [[? E2] | [? E2]];
        rewrite E1, E2; lra.
  - apply ltb_ge in E. split.
    + exists 1.27. split; [cbn [In]; tauto | reflexivity].
    + intros t [<- | [<- | []]]; [lra |].
      destruct (Qabs_cases (v - 1.618)) as [[? E1] | [? E1]];
      destruct (Qabs_cases (v - 1.27)) as [[? E2] | [? E2]];
        rewrite E1, E2; lra.
Qed.

Lemma confidence_mean (r : Ratios) :
  _calculate_confidence r ==
  Spec.mean_of_present
    [option_map score_AB_XA (AB_XA r); option_map score_BC_AB (BC_AB r);
     option_map score_CD_BC (CD_BC r); option_map score_AD_XA (AD_XA r)].
Proof.
  unfold _calculate_confidence, confidence_scores, Spec.mean_of_present.
  destruct (AB_XA r), (BC_AB r), (CD_BC r), (AD_XA r);
    cbn [option_map score_if_present Spec.present app length fold_right];
    unfold Py.mean, Py.sum; cbn [fold_left length]; try reflexivity;
    apply Qdiv_comp; try reflexivity; ring.
Qed.

(** C3, as the code has it.  The confidence is the mean of the scores of the
    ratios present (0 when none is).  The AB/XA score is the proximity score
    to 0.786 and the BC/AB score the proximity score to the nearest of the
    five levels, both with scale 100.  The CD/BC score (scale 50) is taken to
    2.618 when the ratio is above 2.0 and to 1.618 otherwise; the AD/XA score
    (scale 100) to 1.618 when the ratio is above 1.4 and to 1.27 otherwise.
    That target is the nearer of the two whenever CD/BC is outside the open
    interval (2.0, 2.118), respectively AD/XA outside (1.4, 1.444). *)
Theorem confidence_by_threshold (r : Ratios) :
  _calculate_confidence r ==
    Spec.mean_of_present
      [option_map score_AB_XA (AB_XA r); option_map score_BC_AB (BC_AB r);
       option_map score_CD_BC (CD_BC r); option_map score_AD_XA (AD_XA r)] /\
  (forall v, Spec.is_proximity_score 100 v [0.786] (score_AB_XA v)) /\
  (forall v, Spec.is_proximity_score 100 v [0.382; 0.5; 0.618; 0.786; 0.886]
               (score_BC_AB v)) /\
  (forall v, 2.0 < v -> Spec.is_proximity_score 50 v [2.618] (score_CD_BC v)) /\
  (forall v, v <= 2.0 -> Spec.is_proximity_score 50 v [1.618] (score_CD_BC v)) /\
  (forall v, 1.4 < v -> Spec.is_proximity_score 100 v [1.618] (score_AD_XA v)) /\
  (forall v, v <= 1.4 -> Spec.is_proximity_score 100 v [1.27] (score_AD_XA v)) /\
  (forall v, v <= 2.0 \/ 2.118 <= v ->
             Spec.is_proximity_score 50 v [1.618; 2.618] (score_CD_BC v)) /\
  (forall v, v <= 1.4 \/ 1.444 <= v ->
             Spec.is_proximity_score 100 v [1.27; 1.618] (score_AD_XA v)).
Proof.
  split; [apply confidence_mean |].
  split; [intro v; apply proximity, nearest_single |].
  split; [intro v; apply proximity, nearest_fib |].
  split.
  { intros v Hv. unfold score_CD_BC. apply ltb_lt in Hv. rewrite Hv.
    apply proximity, nearest_single. }
  split.
  { intros v Hv. unfold score_CD_BC. apply ltb_ge in Hv. rewrite Hv.
    apply proximity, nearest_single. }
  split.
  { intros v Hv. unfold score_AD_XA. apply ltb_lt in Hv. rewrite Hv.
    apply proximity, nearest_single. }
  split.
  { intros v Hv. unfold score_AD_XA. apply ltb_ge in Hv. rewrite Hv.
    apply proximity, nearest_single. }
  split.
  - intros v Hv. apply proximity, nearest_CD, Hv.
  - intros v Hv. apply proximity, nearest_AD, Hv.
Qed.

Lemma confidence_by_threshold_witness :
  2.0 < 2.05 /\
  Spec.is_proximity_score 50 2.05 [2.618] (score_CD_BC 2.05).
Proof.
  split; [reflexivity |].
  apply (proj1 (proj2 (proj2 (proj2
    (confidence_by_threshold (mkRatios None None None (Some 2.05))))))).
  reflexivity.
Defined.

(** A ratio map holding only CD/BC = 2.05: the nearer target is 1.618 (at
    distance 0.432, score 78.4), the code scores against 2.618 (71.6). *)
Lemma nearest_target_fails :
  _calculate_confidence (mkRatios None None None (Some 2.05)) == 71.6 /\
  ~ Spec.is_proximity_score 50 2.05 [1.618; 2.618]
      (_calculate_confidence (mkRatios None None None (Some 2.05))).
Proof.
  assert (E : _calculate_confidence (mkRatios None None None (Some 2.05)) == 71.6)
    by reflexivity.
  split; [exact E |].
  set (c := _calculate_confidence (mkRatios None None None (Some 2.05))) in *.
  clearbody c. intros [d [[_ Hle] Hs]].
  assert (Hd : d <= 0.432).
  { apply Qle_trans with (Qabs (2.05 - 1.618)); [apply Hle; cbn [In]; tauto |].
    apply Qle_bool_iff. reflexivity. }
  destruct Hs as [[_ Hs] | [H0 _]]; lra.
Qed.

End Confidence.

Example sample_pattern_detected :
  HarmonicPatternDetector._find_butterfly_patterns
    [Sample.X1; Sample.A1; Sample.B1; Sample.C1; Sample.D1] = [Sample.pattern1].
Proof. reflexivity. Qed.

(** ** Fibonacci zones *)

Module FibZones.
Import ZoneManager.

Lemma max_compat (a a' b b' : Q) :
  a == a' -> b == b' -> Py.max a b == Py.max a' b'.
Proof.
  intros Ha Hb. unfold Py.max.
  destruct (Py.ltb a b) eqn:E1, (Py.ltb a' b') eqn:E2;
    try (apply ltb_lt in E1); try (apply ltb_ge in E1);
    try (apply ltb_lt in E2); try (apply ltb_ge in E2); lra.
Qed.

Lemma min_compat (a a' b b' : Q) :
  a == a' -> b == b' -> Py.min a b == Py.min a' b'.
Proof.
  intros Ha Hb. unfold Py.min.
  destruct (Py.ltb b a) eqn:E1, (Py.ltb b' a') eqn:E2;
    try (apply ltb_lt in E1); try (apply ltb_ge in E1);
    try (apply ltb_lt in E2); try (apply ltb_ge in E2); lra.
Qed.

Lemma price_level_compat (dir : Direction) (d d' dist dist' level : Q) :
  d == d' -> dist == dist' ->
  price_level dir d dist level == price_level dir d' dist' level.
Proof.
  intros Hd Hdist. destruct dir; unfold price_level; rewrite Hd, Hdist; reflexivity.
Qed.

(** The level map of a pattern, key by key. *)
Lemma fib_of_zones (p : Pattern) :
  fib (create_fibonacci_zones p) =
  map (fun kl =>
         (fst kl,
          price_level (direction p) (price (D (points p)))
            (Qabs (price (D (points p)) - price (C (points p)))) (snd kl)))
      fib_levels.
Proof. reflexivity. Qed.

Lemma entry_zone_of_zones (p : Pattern) :
  let level :=
    price_level (direction p) (price (D (points p)))
      (Qabs (price (D (points p)) - price (C (points p)))) 0.886 in
  entry_zone (create_fibonacci_zones p) =
    Some (mkZone (Py.max (price (D (points p))) level)
                 (Py.min (price (D (points p))) level) true) /\
  rebound_zone (create_fibonacci_zones p) =
    Some (mkZone (Py.max level (price (C (points p))))
                 (Py.min level (price (C (points p)))) true).
Proof. split; reflexivity. Qed.

(** C4. For a bearish pattern with D at 100 and C at 90 the 0.618 level is
    93.82, the 0.886 level is 91.14 and the entry zone is [91.14, 100]; and
    the levels and both zones depend on nothing but D's price, C's price
    and the direction: two patterns that agree on these get the same levels
    and zone bounds, whatever else differs. *)
Theorem zones_deterministic :
  (forall p,
     price (D (points p)) == 100 -> price (C (points p)) == 90 ->
     direction p = bearish ->
     (exists v, Dict.get "fib_618" (fib (create_fibonacci_zones p)) = Some v /\
                v == 93.82) /\
     (exists v, Dict.get "fib_886" (fib (create_fibonacci_zones p)) = Some v /\
                v == 91.14) /\
     (exists z, entry_zone (create_fibonacci_zones p) = Some z /\
                lower z == 91.14 /\ upper z == 100)) /\
  (forall p1 p2,
     price (D (points p1)) = price (D (points p2)) ->
     price (C (points p1)) = price (C (points p2)) ->
     direction p1 = direction p2 ->
     fib (create_fibonacci_zones p1) = fib (create_fibonacci_zones p2) /\
     entry_zone (create_fibonacci_zones p1) = entry_zone (create_fibonacci_zones p2) /\
     rebound_zone (create_fibonacci_zones p1)
       = rebound_zone (create_fibonacci_zones p2) /\
     base_price (create_fibonacci_zones p1) = base_price (create_fibonacci_zones p2) /\
     target_price (create_fibonacci_zones p1)
       = target_price (create_fibonacci_zones p2)) /\
  (forall p1 p2,
     price (D (points p1)) == price (D (points p2)) ->
     price (C (points p1)) == price (C (points p2)) ->
     direction p1 = direction p2 ->
     Forall2 (fun l1 l2 => fst l1 = fst l2 /\ snd l1 == snd l2)
       (fib (create_fibonacci_zones p1)) (fib (create_fibonacci_zones p2)) /\
     (exists z1 z2,
        entry_zone (create_fibonacci_zones p1) = Some z1 /\
        entry_zone (create_fibonacci_zones p2) = Some z2 /\
        lower z1 == lower z2 /\ upper z1 == upper z2)).
Proof.
  split; [| split].
  - intros p HD HC Hdir.
    assert (Hdist : Qabs (price (D (points p)) - price (C (points p))) == 10).
    { rewrite HD, HC. reflexivity. }
    rewrite fib_of_zones, Hdir.
    destruct (entry_zone_of_zones p) as [Hez _]. rewrite Hdir in Hez.
    cbv zeta in Hez. rewrite Hez. clear Hez.
    split; [| split].
    + eexists. split; [reflexivity |]. cbn [snd]. unfold price_level.
      rewrite Hdist, HD. reflexivity.
    + eexists. split; [reflexivity |]. cbn [snd]. unfold price_level.
      rewrite Hdist, HD. reflexivity.
    + eexists. split; [reflexivity |]. cbn [lower upper]. unfold price_level.
      split.
      * rewrite (min_compat _ 100 _ 91.14); [reflexivity | exact HD |].
        rewrite Hdist, HD. reflexivity.
      * rewrite (max_compat _ 100 _ 91.14); [reflexivity | exact HD |].
        rewrite Hdist, HD. reflexivity.
  - intros p1 p2 HD HC Hdir.
    destruct (entry_zone_of_zones p1) as [E1 R1].
    destruct (entry_zone_of_zones p2) as [E2 R2].
    cbv zeta in E1, R1, E2, R2.
    rewrite !fib_of_zones, E1, R1, E2, R2, HD, HC, Hdir.
    repeat split; try reflexivity.
    + unfold create_fibonacci_zones. cbn [base_price]. exact HD.
    + unfold create_fibonacci_zones. cbn [target_price]. exact HC.
  - intros p1 p2 HD HC Hdir.
    assert (Hdist : Qabs (price (D (points p1)) - price (C (points p1)))
                    == Qabs (price (D (points p2)) - price (C (points p2)))).
    { rewrite HD, HC. reflexivity. }
    destruct (entry_zone_of_zones p1) as [E1 _].
    destruct (entry_zone_of_zones p2) as [E2 _].
    cbv zeta in E1, E2.
    split.
    + rewrite !fib_of_zones, Hdir. unfold fib_levels. cbn [map fst snd].
      repeat constructor; cbn [fst snd]; apply price_level_compat; assumption.
    + do 2 eexists. split; [exact E1 | split; [exact E2 |]].
      cbn [lower upper]. rewrite Hdir.
      split; [apply min_compat | apply max_compat]; try assumption;
        apply price_level_compat; assumption.
Qed.

Lemma zones_deterministic_witness :
  price (D (points Sample.pattern1)) == 100 /\
  price (C (points Sample.pattern1)) == 90 /\
  direction Sample.pattern1 = bearish /\
  exists v, Dict.get "fib_618" (fib (create_fibonacci_zones Sample.pattern1)) = Some v /\
            v == 93.82.
Proof.
  split; [reflexivity | split; [reflexivity | split; [reflexivity |]]].
  apply (proj1 (proj1 zones_deterministic Sample.pattern1
                  (Qeq_refl _) (Qeq_refl _) eq_refl)).
Defined.

End FibZones.

(** In binary64 the two levels of the example come out as the doubles
    nearest to 93.82 and 91.14, and [level*1000] is a whole number for each
    of the seven levels, so the keys are [fib_236] ... [fib_1000]. *)
Module Binary64Facts.
Import Floats.
#[local] Set Warnings "-inexact-float".

Example levels_in_binary64 :
  (Binary64.price_level true 100 90 0.618 =? 93.82)%float = true /\
  (Binary64.price_level true 100 90 0.886 =? 91.14)%float = true /\
  map Binary64.key_number Binary64.levels = Binary64.key_numbers.
Proof. repeat split; vm_compute; reflexivity. Qed.

End Binary64Facts.
(** ** Trendlines through X, B and D *)

Module Trendlines.
Import HarmonicPatternDetector.

(** The five points of a pattern, in order. *)
Lemma valid_sequence_cases (pts : Points) :
  _is_valid_sequence [X pts; A pts; B pts; C pts; D pts] = true ->
  (type (X pts) = low_t /\ type (A pts) = high_t /\ type (B pts) = low_t /\
   type (C pts) = high_t /\ type (D pts) = low_t) \/
  (type (X pts) = high_t /\ type (A pts) = low_t /\ type (B pts) = high_t /\
   type (C pts) = low_t /\ type (D pts) = high_t).
Proof.
  unfold _is_valid_sequence. cbn [map].
  destruct (type (X pts)), (type (A pts)), (type (B pts)), (type (C pts)),
    (type (D pts)); cbn; intro H; try discriminate; tauto.
Qed.

Lemma roles_match (p : Pattern) :
  _is_valid_sequence
    [X (points p); A (points p); B (points p); C (points p); D (points p)] = true ->
  direction p = match type (D (points p)) with high_t => bearish | low_t => bullish end ->
  type (X (points p)) = ZoneManager.role (direction p) /\
  type (B (points p)) = ZoneManager.role (direction p) /\
  type (D (points p)) = ZoneManager.role (direction p).
Proof.
  intros Hv Hd. apply valid_sequence_cases in Hv.
  destruct Hv as [(HX & _ & HB & _ & HD) | (HX & _ & HB & _ & HD)];
    rewrite Hd, HX, HB, HD; cbn; tauto.
Qed.

Lemma zone_points (p : Pattern) :
  type (X (points p)) = ZoneManager.role (direction p) ->
  type (B (points p)) = ZoneManager.role (direction p) ->
  type (D (points p)) = ZoneManager.role (direction p) ->
  exists x b d, ZoneManager.trendline_points p = [x; b; d].
Proof.
  intros HX HB HD. unfold ZoneManager.trendline_points. cbn [flat_map].
  rewrite HX, HB, HD.
  destruct (direction p); cbn; do 3 eexists; reflexivity.
Qed.

Lemma confirmation_points (p : Pattern) :
  type (X (points p)) = ZoneManager.role (direction p) ->
  type (B (points p)) = ZoneManager.role (direction p) ->
  type (D (points p)) = ZoneManager.role (direction p) ->
  exists x b d, ConfirmationSystem.trendline_points p = [x; b; d].
Proof.
  intros HX HB HD. unfold ConfirmationSystem.trendline_points. cbn [flat_map].
  rewrite HX, HB, HD.
  destruct (direction p); cbn; do 3 eexists; reflexivity.
Qed.

(** Every pattern the scan emits has alternating kinds and the direction of
    its D point. *)
Lemma detected_pattern_shape (pivots : list Pivot) (p : Pattern) :
  In p (_find_butterfly_patterns pivots) ->
  _is_valid_sequence
    [X (points p); A (points p); B (points p); C (points p); D (points p)] = true /\
  direction p = match type (D (points p)) with high_t => bearish | low_t => bullish end.
Proof.
  intro H. apply Butterfly.in_find_butterfly in H.
  destruct H as (pre & x & a & b & c & d & post & _ & H).
  apply Butterfly.in_scan_window in H. destruct H as (Hv & _ & ->).
  cbn. split; [exact Hv | reflexivity].
Qed.

(** C10. In a pattern whose five points follow one of the two alternating
    templates and whose direction is the one of its D point (as in every
    pattern the detector emits), X, B and D all have the pivot kind of the
    trendline role: High for bearish, Low for bullish.  Both trendline
    builders therefore collect exactly three points and return a trendline,
    never taking their "fewer than two points" exit, and the zone manager's
    trendline has three touches and is valid. *)
Theorem trendline_three_points (p : Pattern) :
  _is_valid_sequence
    [X (points p); A (points p); B (points p); C (points p); D (points p)] = true ->
  direction p = match type (D (points p)) with high_t => bearish | low_t => bullish end ->
  (type (X (points p)) = ZoneManager.role (direction p) /\
   type (B (points p)) = ZoneManager.role (direction p) /\
   type (D (points p)) = ZoneManager.role (direction p)) /\
  length (ZoneManager.trendline_points p) = 3%nat /\
  length (ConfirmationSystem.trendline_points p) = 3%nat /\
  (forall df,
     exists t, ZoneManager.create_trendline_zones df p = Some t /\
               ZoneManager.touches t = 3%nat /\ ZoneManager.is_valid t = true) /\
  (forall df,
     exists t, ConfirmationSystem._build_trendline df p = Some t /\
               length (td_points t) = 3%nat).
Proof.
  intros Hv Hd. destruct (roles_match p Hv Hd) as (HX & HB & HD).
  destruct (zone_points p HX HB HD) as (x & b & d & Hz).
  destruct (confirmation_points p HX HB HD) as (x' & b' & d' & Hc).
  split; [tauto |].
  split; [rewrite Hz; reflexivity |].
  split; [rewrite Hc; reflexivity |].
  split; intro df.
  - unfold ZoneManager.create_trendline_zones. rewrite Hz. cbn [length Nat.leb rev app].
    eexists. split; [reflexivity | split; reflexivity].
  - unfold ConfirmationSystem._build_trendline. rewrite Hc. cbn [length Nat.ltb Nat.leb].
    destruct (ConfirmationSystem._calculate_trendline_equation [x'; b'; d']) as [m q].
    eexists. split; [reflexivity | reflexivity].
Qed.

Lemma trendline_three_points_witness :
  _is_valid_sequence
    [Sample.X1; Sample.A1; Sample.B1; Sample.C1; Sample.D1] = true /\
  length (ZoneManager.trendline_points Sample.pattern1) = 3%nat /\
  exists t, ZoneManager.create_trendline_zones [] Sample.pattern1 = Some t /\
            ZoneManager.touches t = 3%nat /\ ZoneManager.is_valid t = true.
Proof.
  split; [reflexivity |].
  split.
  - apply (proj1 (proj2 (trendline_three_points Sample.pattern1 eq_refl eq_refl))).
  - apply (proj1 (proj2 (proj2 (proj2
      (trendline_three_points Sample.pattern1 eq_refl eq_refl)))) []).
Defined.

End Trendlines.
(** ** Entry confirmations *)

Module Confirmation.
Import ConfirmationSystem.

(** When the candle gate fires, the close it records is the close of the
    last 5-minute candle. *)
Lemma candle_gate_close (df_5m : list Candle) (zones : Zones) :
  confirmed (_check_5m_candle_confirmation df_5m zones) = true ->
  exists c, iloc_last df_5m = Some c /\
            close_price (_check_5m_candle_confirmation df_5m zones) = Some (close c).
Proof.
  unfold _check_5m_candle_confirmation.
  destruct (length df_5m <? 2)%nat; [discriminate |].
  destruct (iloc_last df_5m) as [c |]; [| discriminate].
  destruct (Dict.get "fib_886" (fib zones)) as [level |]; [| discriminate].
  destruct (zones_direction zones) as [dir |]; [| discriminate].
  destruct (negb (Py.nonzero level)); [discriminate |].
  intros _. exists c. split; reflexivity.
Qed.

Lemma truthy_fallback (x : Q) (o : option Q) :
  o = Some x ->
  (if negb (truthy (Some x)) then o else Some x) = Some x.
Proof. intros ->. destruct (negb (truthy (Some x))); reflexivity. Qed.

(** C1. The entry signal is the conjunction of the three gates, so it is
    false whenever only two of them pass.  When it fires, the direction is
    SELL for a bearish pattern and BUY for a bullish one, and the entry price
    is the close of the last 5-minute candle; that is also the price recorded
    whenever the candle gate fires.  Without a signal no direction is set. *)
Theorem entry_signal_all_gates (df_1h df_5m : list Candle) (pattern : Pattern)
  (zones : Zones) :
  let r := check_entry_confirmations df_1h df_5m pattern zones in
  candle_5m_confirmation r = confirmed (_check_5m_candle_confirmation df_5m zones) /\
  trendline_break r =
    break_confirmed (_check_trendline_confirmation df_1h df_5m pattern zones) /\
  zone_break r = _check_zone_break_confirmation df_5m zones /\
  entry_signal r = candle_5m_confirmation r && trendline_break r && zone_break r /\
  total_score r =
    ((if candle_5m_confirmation r then 1 else 0) +
     (if trendline_break r then 1 else 0) +
     (if zone_break r then 1 else 0))%nat /\
  (entry_signal r = true ->
     entry_direction r =
       Some (match direction pattern with bearish => SELL | bullish => BUY end) /\
     exists c, iloc_last df_5m = Some c /\ entry_price r = Some (close c)) /\
  (candle_5m_confirmation r = true ->
     exists c, iloc_last df_5m = Some c /\ entry_price r = Some (close c)) /\
  (entry_signal r = false -> entry_direction r = None).
Proof.
  unfold check_entry_confirmations.
  pose proof (candle_gate_close df_5m zones) as Hclose.
  destruct (confirmed (_check_5m_candle_confirmation df_5m zones)) eqn:G1;
  destruct (break_confirmed (_check_trendline_confirmation df_1h df_5m pattern zones))
    eqn:G2;
  destruct (_check_zone_break_confirmation df_5m zones) eqn:G3;
  cbn; repeat split; try discriminate; try reflexivity;
  destruct (Hclose eq_refl) as [c [Hl Hc]]; exists c;
  (split; [exact Hl |]); rewrite Hc; try reflexivity;
  apply truthy_fallback; rewrite Hl; reflexivity.
Qed.

End Confirmation.

(** All three gates pass on the sample frames: SELL at the last close. *)
Lemma entry_signal_all_gates_witness :
  entry_signal
    (ConfirmationSystem.check_entry_confirmations
       Sample.hourly3 Sample.minutes3 Sample.pattern3 Sample.zones3) = true /\
  entry_direction
    (ConfirmationSystem.check_entry_confirmations
       Sample.hourly3 Sample.minutes3 Sample.pattern3 Sample.zones3) = Some SELL /\
  exists c,
    iloc_last Sample.minutes3 = Some c /\
    entry_price
      (ConfirmationSystem.check_entry_confirmations
         Sample.hourly3 Sample.minutes3 Sample.pattern3 Sample.zones3)
    = Some (close c).
Proof.
  pose proof (Confirmation.entry_signal_all_gates
                Sample.hourly3 Sample.minutes3 Sample.pattern3 Sample.zones3) as H.
  cbv zeta in H. destruct H as (_ & _ & _ & _ & _ & H & _).
  split; [vm_compute; reflexivity |].
  apply H. vm_compute; reflexivity.
Defined.

(** Each pair of gates can pass without the third; no signal follows. *)
Example two_gates_no_trendline :
  ConfirmationSystem.check_entry_confirmations
    [] Sample.minutes3 Sample.pattern3 Sample.zones3
  = mkConfirmations true false true 2 false None (Some (close (Sample.bar 108300 80))).
Proof. vm_compute. reflexivity. Qed.

Example two_gates_no_zone_break :
  ConfirmationSystem.check_entry_confirmations
    Sample.hourly3 Sample.minutes3 Sample.pattern3 Sample.zones3_low_entry
  = mkConfirmations true true false 2 false None (Some (close (Sample.bar 108300 80))).
Proof. vm_compute. reflexivity. Qed.

Example two_gates_no_candle :
  ConfirmationSystem.check_entry_confirmations
    Sample.hourly3 Sample.minutes3 Sample.pattern3 Sample.zones3_no_level
  = mkConfirmations false true true 2 false None None.
Proof. vm_compute. reflexivity. Qed.
(** ** Take-profit levels *)

Module TakeProfits.
Import PositionManager.

Section Sorting.
Variable before : Q -> Q -> bool.
Variable R : Q -> Q -> Prop.
Hypothesis before_true : forall y x, before y x = true -> R y x.
Hypothesis before_false : forall y x, before y x = false -> R x y.
Hypothesis R_trans : forall a b c, R a b -> R b c -> R a c.

Lemma in_insert_sorted (x y : Q) (l : list Q) :
  In y (insert_sorted before x l) <-> y = x \/ In y l.
Proof.
  induction l as [| z l IH]; cbn [insert_sorted In].
  - intuition auto.
  - destruct (before z x); cbn [In]; [rewrite IH |]; intuition auto.
Qed.

Lemma in_sort_with (y : Q) (l : list Q) : In y (sort_with before l) <-> In y l.
Proof.
  unfold sort_with. induction l as [| x l IH]; cbn [fold_right In]; [tauto |].
  rewrite in_insert_sorted, IH. intuition auto.
Qed.

Lemma length_insert_sorted (x : Q) (l : list Q) :
  length (insert_sorted before x l) = S (length l).
Proof.
  induction l as [| z l IH]; cbn [insert_sorted length]; [reflexivity |].
  destruct (before z x); cbn [length]; [rewrite IH |]; reflexivity.
Qed.

Lemma length_sort_with (l : list Q) : length (sort_with before l) = length l.
Proof.
  unfold sort_with. induction l as [| x l IH]; cbn [fold_right length]; [reflexivity |].
  rewrite length_insert_sorted, IH. reflexivity.
Qed.

Lemma insert_sorted_sorted (x : Q) (l : list Q) :
  StronglySorted R l -> StronglySorted R (insert_sorted before x l).
Proof.
  induction 1 as [| z l Hs IH Hall]; cbn [insert_sorted].
  - repeat constructor.
  - destruct (before z x) eqn:E.
    + constructor; [exact IH |].
      apply Forall_forall. intros y Hy. apply in_insert_sorted in Hy.
      destruct Hy as [-> | Hy]; [apply before_true; exact E |].
      rewrite Forall_forall in Hall. apply Hall. exact Hy.
    + apply before_false in E.
      constructor; [constructor; assumption |].
      constructor; [exact E |].
      apply Forall_forall. intros y Hy. rewrite Forall_forall in Hall.
      apply R_trans with z; [exact E | apply Hall; exact Hy].
Qed.

Lemma sort_with_sorted (l : list Q) : StronglySorted R (sort_with before l).
Proof.
  unfold sort_with. induction l as [| x l IH]; cbn [fold_right].
  - constructor.
  - apply insert_sorted_sorted. exact IH.
Qed.
End Sorting.

Lemma strongly_sorted_firstn (R : Q -> Q -> Prop) (n : nat) (l : list Q) :
  StronglySorted R l -> StronglySorted R (firstn n l).
Proof.
  intro H. revert n. induction H as [| x l Hs IH Hall]; intro n.
  - rewrite firstn_nil. constructor.
  - destruct n as [| n]; cbn [firstn]; [constructor |].
    constructor; [apply IH |].
    apply Forall_forall. intros y Hy. rewrite Forall_forall in Hall.
    apply Hall. revert Hy. clear. revert n. induction l as [| z l IHl]; intros n Hy.
    + rewrite firstn_nil in Hy. exact Hy.
    + destruct n; cbn [firstn In] in *; [tauto |].
      destruct Hy as [-> | Hy]; [left; reflexivity | right; eapply IHl; exact Hy].
Qed.

Lemma sort_ascending_sorted (l : list Q) : StronglySorted Qle (sort_ascending l).
Proof.
  apply sort_with_sorted.
  - intros y x H. apply ltb_lt in H. lra.
  - intros y x H. apply ltb_ge in H. exact H.
  - intros a b c. apply Qle_trans.
Qed.

Lemma sort_descending_sorted (l : list Q) :
  StronglySorted (fun a b => b <= a) (sort_descending l).
Proof.
  apply sort_with_sorted.
  - intros y x H. apply ltb_lt in H. lra.
  - intros y x H. apply ltb_ge in H. exact H.
  - intros a b c H1 H2. apply Qle_trans with b; assumption.
Qed.

Lemma in_firstn (n : nat) (l : list Q) (x : Q) : In x (firstn n l) -> In x l.
Proof.
  revert n. induction l as [| z l IH]; intros n H.
  - rewrite firstn_nil in H. exact H.
  - destruct n; cbn [firstn In] in *; [tauto |].
    destruct H as [-> | H]; [left; reflexivity | right; eapply IH; exact H].
Qed.

(** The levels fetched from the map, in the order of the key list. *)
Lemma targets_cases (pattern : Pattern) (zones : Zones) :
  exists levels,
    take_profit_targets pattern zones = levels ++ [price (C (points pattern))] /\
    (length levels <= 3)%nat /\
    (forall x, In x levels ->
       exists k, In k ["fib_618"%string; "fib_500"%string; "fib_382"%string] /\
                 Dict.get k (fib zones) = Some x) /\
    (length levels = 3%nat ->
     exists l1 l2 l3,
       levels = [l1; l2; l3] /\
       Dict.get "fib_618" (fib zones) = Some l1 /\
       Dict.get "fib_500" (fib zones) = Some l2 /\
       Dict.get "fib_382" (fib zones) = Some l3).
Proof.
  unfold take_profit_targets. cbn [flat_map].
  destruct (Dict.get "fib_618" (fib zones)) as [l1 |] eqn:E1;
  destruct (Dict.get "fib_500" (fib zones)) as [l2 |] eqn:E2;
  destruct (Dict.get "fib_382" (fib zones)) as [l3 |] eqn:E3;
  eexists; (split; [reflexivity |]); cbn [app length];
  (split; [lia |]);
  (split;
   [ intros x Hx; cbn [In] in Hx;
     repeat match goal with
            | H : _ \/ _ |- _ => destruct H
            | H : False |- _ => destruct H
            end; subst;
     first [ exists "fib_618"%string; split; [cbn [In]; tauto | assumption]
           | exists "fib_500"%string; split; [cbn [In]; tauto | assumption]
           | exists "fib_382"%string; split; [cbn [In]; tauto | assumption] ]
   | intro Hlen; try discriminate Hlen;
     do 3 eexists; repeat split; reflexivity ]).
Qed.

Ltac solve_exists :=
  first [ apply Exists_cons_hd; lra
        | apply Exists_cons_tl; solve_exists ].

(** With all three levels present, C's price survives the cut to three unless
    the three levels all sort strictly before it. *)
Lemma ascending_keeps (l1 l2 l3 c : Q) :
  Exists (fun x => x == c) (firstn 3 (sort_ascending [l1; l2; l3; c])) \/
  (l1 < c /\ l2 < c /\ l3 < c).
Proof.
  unfold sort_ascending, sort_with. cbn [fold_right insert_sorted].
  destruct (Qlt_le_dec l1 c), (Qlt_le_dec l2 c), (Qlt_le_dec l3 c);
    try (right; repeat split; assumption);
  repeat match goal with
         | |- context [Py.ltb ?a ?b] =>
             let E := fresh "E" in
             destruct (Py.ltb a b) eqn:E;
             [apply ltb_lt in E | apply ltb_ge in E];
             cbn [insert_sorted]
         end;
  cbn [firstn]; try (exfalso; lra); left; solve_exists.
Qed.

Lemma descending_keeps (l1 l2 l3 c : Q) :
  Exists (fun x => x == c) (firstn 3 (sort_descending [l1; l2; l3; c])) \/
  (c < l1 /\ c < l2 /\ c < l3).
Proof.
  unfold sort_descending, sort_with. cbn [fold_right insert_sorted].
  destruct (Qlt_le_dec c l1), (Qlt_le_dec c l2), (Qlt_le_dec c l3);
    try (right; repeat split; assumption);
  repeat match goal with
         | |- context [Py.ltb ?a ?b] =>
             let E := fresh "E" in
             destruct (Py.ltb a b) eqn:E;
             [apply ltb_lt in E | apply ltb_ge in E];
             cbn [insert_sorted]
         end;
  cbn [firstn]; try (exfalso; lra); left; solve_exists.
Qed.

(** The legs added by the placement loop all carry the size handed to it. *)
Lemma place_legs_sizes {V : Type} {venue : Venue V} (sym : string) (side : OrderSide)
  (tp_size : Q) (prices : list Q) :
  forall (i : nat) (legs : list TpOrder) (e : Env V) (leg : TpOrder),
    In leg (fst (place_legs sym side tp_size i prices legs e)) ->
    In leg legs \/ (size leg = tp_size /\ In (tp_level_price leg) prices).
Proof.
  induction prices as [| tp_price rest IH]; intros i legs e leg H; cbn [place_legs] in H.
  - left. exact H.
  - destruct (call (place_limit_order sym side tp_size tp_price) e) as [[[o |] | err] e'].
    + apply IH in H. destruct H as [H | [Hs Hp]].
      * apply in_app_iff in H. destruct H as [H | [<- | []]]; [left; exact H |].
        right. split; [reflexivity | left; reflexivity].
      * right. split; [exact Hs | right; exact Hp].
    + apply IH in H. destruct H as [H | [Hs Hp]]; [left; exact H |].
      right. split; [exact Hs | right; exact Hp].
    + left. exact H.
Qed.

(** C7, as the code has it.  The take-profit list is never empty: the
    targets gathered always include C's price, and the list returned holds a
    price equal to C's unless all three retracement levels (0.618, 0.5,
    0.382) are present and sort strictly before C.  It has at most three
    entries, each one C's price or one of these three levels of the zone's
    map, in ascending order for a bearish pattern and in descending order for
    a bullish one.  On placement every leg recorded gets the position size
    divided by the number of take-profit levels. *)
Theorem take_profits_shape (pattern : Pattern) (zones : Zones) :
  let tps := _calculate_take_profits pattern zones in
  tps <> [] /\
  (length tps <= 3)%nat /\
  In (price (C (points pattern))) (take_profit_targets pattern zones) /\
  (forall x, In x tps ->
     x = price (C (points pattern)) \/
     exists k, In k ["fib_618"%string; "fib_500"%string; "fib_382"%string] /\
               Dict.get k (fib zones) = Some x) /\
  Spec.ordered_for (direction pattern) tps /\
  (Exists (fun x => x == price (C (points pattern))) tps \/
   exists l1 l2 l3,
     Dict.get "fib_618" (fib zones) = Some l1 /\
     Dict.get "fib_500" (fib zones) = Some l2 /\
     Dict.get "fib_382" (fib zones) = Some l3 /\
     Spec.strictly_before (direction pattern) l1 (price (C (points pattern))) /\
     Spec.strictly_before (direction pattern) l2 (price (C (points pattern))) /\
     Spec.strictly_before (direction pattern) l3 (price (C (points pattern)))) /\
  (forall (V : Type) (venue : Venue V) (position : Position) (e : Env V) (leg : TpOrder),
     tp_orders position = [] ->
     In leg (tp_orders (fst (_place_take_profits position e))) ->
     size leg = position_size position / qnat (length (take_profits position)) /\
     In (tp_level_price leg) (take_profits position)).
Proof.
  cbv zeta. unfold _calculate_take_profits.
  destruct (targets_cases pattern zones) as (levels & Ht & Hlen & Hlev & Hthree).
  set (c := price (C (points pattern))) in *.
  set (sorted := match direction pattern with
                 | bearish => sort_ascending (take_profit_targets pattern zones)
                 | bullish => sort_descending (take_profit_targets pattern zones)
                 end).
  assert (Hin : forall x, In x sorted <-> In x (take_profit_targets pattern zones)).
  { intro x. unfold sorted. destruct (direction pattern); apply in_sort_with. }
  assert (Hl : length sorted = S (length levels)).
  { unfold sorted. destruct (direction pattern);
      unfold sort_ascending, sort_descending;
      rewrite length_sort_with, Ht, length_app; cbn [length]; lia. }
  split; [| split; [| split; [| split; [| split; [| split]]]]].
  - destruct sorted; [discriminate Hl | cbn [firstn]; discriminate].
  - rewrite length_firstn. lia.
  - rewrite Ht. apply in_app_iff. right. left. reflexivity.
  - intros x Hx. apply in_firstn in Hx. apply Hin in Hx. rewrite Ht in Hx.
    apply in_app_iff in Hx. destruct Hx as [Hx | [<- | []]].
    + right. apply Hlev. exact Hx.
    + left. reflexivity.
  - unfold Spec.ordered_for, sorted. destruct (direction pattern);
      apply strongly_sorted_firstn;
      [apply sort_ascending_sorted | apply sort_descending_sorted].
  - destruct (Nat.eq_dec (length levels) 3) as [H3 | H3].
    + destruct (Hthree H3) as (l1 & l2 & l3 & -> & G1 & G2 & G3).
      unfold sorted. rewrite Ht. cbn [app]. unfold Spec.strictly_before.
      destruct (direction pattern).
      * destruct (ascending_keeps l1 l2 l3 c) as [H | H]; [left; exact H |].
        right. exists l1, l2, l3. tauto.
      * destruct (descending_keeps l1 l2 l3 c) as [H | H]; [left; exact H |].
        right. exists l1, l2, l3. tauto.
    + left. rewrite firstn_all2 by lia.
      apply Exists_exists. exists c. split; [| reflexivity].
      apply Hin. rewrite Ht. apply in_app_iff. right. left. reflexivity.
  - intros V venue position e leg Hnil Hleg.
    unfold _place_take_profits in Hleg.
    destruct (take_profits position) as [| tp rest] eqn:Etp.
    + cbn [fst] in Hleg. rewrite Hnil in Hleg. destruct Hleg.
    + rewrite Hnil in Hleg.
      match type of Hleg with
      | context [place_legs ?s ?sd ?sz ?i ?ps ?lg ?en] =>
          pose proof (place_legs_sizes s sd sz ps i lg en leg) as Hsz;
          destruct (place_legs s sd sz i ps lg en) as [legs e']
      end.
      cbn [fst with_tp_orders tp_orders] in Hleg, Hsz.
      destruct (Hsz Hleg) as [[] | H]. exact H.
Qed.

Lemma take_profits_shape_witness :
  tp_orders (mkPosition "p" "BTCUSDT" (Some SELL) 80 4 101 [90; 93.82; 95] 0
               Sample.pattern1 Sample.zones1 ACTIVE None None None None []) = [] /\
  In (mkTpOrder (Some "0"%string) 90 (4 / qnat 3) 1 false None)
     (tp_orders (fst (_place_take_profits
        (mkPosition "p" "BTCUSDT" (Some SELL) 80 4 101 [90; 93.82; 95] 0
           Sample.pattern1 Sample.zones1 ACTIVE None None None None [])
        (mkEnv (PaperVenue.mk [] 0 1000 100) [] 0)))) /\
  size (mkTpOrder (Some "0"%string) 90 (4 / qnat 3) 1 false None) = 4 / qnat 3 /\
  In (tp_level_price (mkTpOrder (Some "0"%string) 90 (4 / qnat 3) 1 false None))
     [90; 93.82; 95].
Proof.
  assert (Hin :
    In (mkTpOrder (Some "0"%string) 90 (4 / qnat 3) 1 false None)
       (tp_orders (fst (_place_take_profits
          (mkPosition "p" "BTCUSDT" (Some SELL) 80 4 101 [90; 93.82; 95] 0
             Sample.pattern1 Sample.zones1 ACTIVE None None None None [])
          (mkEnv (PaperVenue.mk [] 0 1000 100) [] 0))))).
  { left. reflexivity. }
  split; [reflexivity | split; [exact Hin |]].
  apply (proj2 (proj2 (proj2 (proj2 (proj2 (proj2
    (take_profits_shape Sample.pattern1 Sample.zones1)))))) PaperVenue.t PaperVenue.venue
    (mkPosition "p" "BTCUSDT" (Some SELL) 80 4 101 [90; 93.82; 95] 0
       Sample.pattern1 Sample.zones1 ACTIVE None None None None [])
    (mkEnv (PaperVenue.mk [] 0 1000 100) [] 0)
    (mkTpOrder (Some "0"%string) 90 (4 / qnat 3) 1 false None) eq_refl Hin).
Defined.

(** The window with C = 110 above D = 100 is accepted by the scan, and its
    take-profit list is the three retracement levels: C's price is cut off. *)
Lemma take_profits_drop_C :
  HarmonicPatternDetector._find_butterfly_patterns
    [Sample.X2; Sample.A2; Sample.B2; Sample.C2; Sample.D2] = [Sample.pattern2] /\
  ~ Exists (fun x => x == price (C (points Sample.pattern2)))
      (_calculate_take_profits Sample.pattern2 Sample.zones2).
Proof.
  split; [reflexivity |].
  intro H. apply Exists_exists in H. destruct H as [x [Hx Hc]].
  apply Qeq_bool_iff in Hc.
  vm_compute in Hx.
  destruct Hx as [<- | [<- | [<- | []]]]; vm_compute in Hc; discriminate.
Qed.

End TakeProfits.
(** ** The position registry *)

Module Registry.
Import PositionManager.

Section Dictionaries.
Variable T : Type.
Implicit Types (m : list (string * T)) (k : string).

Lemma filter_all m (f : string * T -> bool) :
  (forall x, In x m -> f x = true) -> filter f m = m.
Proof.
  induction m as [| x m IH]; intro H; cbn [filter]; [reflexivity |].
  rewrite (H x (or_introl eq_refl)), IH; [reflexivity |].
  intros y Hy. apply H. right. exact Hy.
Qed.

Lemma filter_twice m (f g : string * T -> bool) :
  filter f (filter g m) = filter (fun x => g x && f x) m.
Proof.
  induction m as [| x m IH]; cbn [filter]; [reflexivity |].
  destruct (g x); cbn [filter andb]; [destruct (f x) |]; rewrite IH; reflexivity.
Qed.

Lemma keys_filter_in m (f : string * T -> bool) k :
  In k (Dict.keys (filter f m)) -> In k (Dict.keys m).
Proof.
  unfold Dict.keys. rewrite !in_map_iff.
  intros [x [Hk Hx]]. apply filter_In in Hx. exists x. tauto.
Qed.

Lemma nodup_filter m (f : string * T -> bool) :
  NoDup (Dict.keys m) -> NoDup (Dict.keys (filter f m)).
Proof.
  unfold Dict.keys.
  induction m as [| x m IH]; cbn [filter map]; intro H; [constructor |].
  inversion H as [| ? ? Hnot Hnd]; subst.
  destruct (f x); cbn [map]; [| apply IH; exact Hnd].
  constructor; [| apply IH; exact Hnd].
  intro Hin. apply Hnot. apply (keys_filter_in m f). exact Hin.
Qed.

(** On a dictionary, deleting a key removes every entry that has it. *)
Lemma del_filter m k :
  NoDup (Dict.keys m) ->
  Dict.del k m = filter (fun item => negb (String.eqb k (fst item))) m.
Proof.
  unfold Dict.keys.
  induction m as [| [k' v] m IH]; cbn [Dict.del filter map fst]; intro H;
    [reflexivity |].
  inversion H as [| ? ? Hnot Hnd]; subst.
  destruct (String.eqb k k') eqn:E; cbn [negb].
  - apply String.eqb_eq in E. subst k'.
    symmetry. apply filter_all. intros [k2 v2] Hin. cbn [fst].
    destruct (String.eqb k k2) eqn:E2; [| reflexivity].
    apply String.eqb_eq in E2. subst k2. exfalso. apply Hnot.
    apply in_map_iff. exists (k, v2). split; [reflexivity | exact Hin].
  - rewrite IH by exact Hnd. reflexivity.
Qed.

Lemma fold_del (ids : list string) m :
  NoDup (Dict.keys m) ->
  fold_left (fun reg k => Dict.del k reg) ids m =
  filter (fun item => negb (existsb (fun k => String.eqb k (fst item)) ids)) m.
Proof.
  revert m. induction ids as [| k ids IH]; intros m H; cbn [fold_left existsb].
  - symmetry. apply filter_all. reflexivity.
  - rewrite del_filter by exact H.
    rewrite IH by (apply nodup_filter; exact H).
    rewrite filter_twice. apply filter_ext. intros item.
    destruct (String.eqb k (fst item)); reflexivity.
Qed.

(** Deleting the keys of the entries selected by [f] keeps exactly the
    entries not selected. *)
Lemma delete_selected m (f : string * T -> bool) :
  NoDup (Dict.keys m) ->
  fold_left (fun reg k => Dict.del k reg) (map fst (filter f m)) m =
  filter (fun item => negb (f item)) m.
Proof.
  intro H. rewrite fold_del by exact H.
  apply filter_ext_in. intros [k v] Hin. f_equal. cbn [fst].
  destruct (f (k, v)) eqn:E.
  - apply existsb_exists. exists k. split; [| apply String.eqb_refl].
    apply in_map_iff. exists (k, v). split; [reflexivity |].
    apply filter_In. split; assumption.
  - destruct (existsb _ _) eqn:Ex; [| reflexivity].
    apply existsb_exists in Ex. destruct Ex as [k' [Hk' Heq]].
    apply String.eqb_eq in Heq. subst k'.
    apply in_map_iff in Hk'. destruct Hk' as [[k2 v2] [Hk2 Hf]].
    cbn [fst] in Hk2. subst k2. apply filter_In in Hf. destruct Hf as [Hin2 Hf].
    assert (v2 = v); [| subst; congruence].
    clear - H Hin Hin2. unfold Dict.keys in H.
    induction m as [| [k3 v3] m IH]; [destruct Hin |].
    cbn [map fst] in H. inversion H as [| ? ? Hnot Hnd]; subst.
    destruct Hin as [Hin | Hin], Hin2 as [Hin2 | Hin2].
    + congruence.
    + injection Hin as -> ->. exfalso. apply Hnot.
      apply in_map_iff. exists (k, v2). split; [reflexivity | exact Hin2].
    + injection Hin2 as -> ->. exfalso. apply Hnot.
      apply in_map_iff. exists (k, v). split; [reflexivity | exact Hin].
    + apply IH; assumption.
Qed.
End Dictionaries.

Lemma expired_spec (cutoff : Z) (p : Position) :
  expired cutoff p = true <-> Spec.closed_before cutoff p.
Proof.
  unfold expired, Spec.closed_before. rewrite andb_true_iff.
  destruct (status p), (close_time p) as [t |]; cbn [Status_eqb];
    try rewrite Z.ltb_lt; split.
  all: try (intros [H _]; discriminate).
  all: try (intros [_ H]; discriminate).
  all: try (intros [_ [t' [H _]]]; discriminate).
  - intros [_ H]. split; [reflexivity | exists t; split; [reflexivity | exact H]].
  - intros [_ [t' [H1 H2]]]. injection H1 as <-. split; [reflexivity | exact H2].
Qed.

Lemma cleanup_filter {V : Type} (days : Z) (m : Manager V) :
  NoDup (Dict.keys (active_positions m)) ->
  cleanup_old_positions days m =
  mkManager (env m)
    (filter (fun item => negb (expired (now (env m) - timedelta days) (snd item)))
            (active_positions m)).
Proof.
  intro H. unfold cleanup_old_positions. f_equal.
  apply (delete_selected Position (active_positions m)
           (fun item => expired (now (env m) - timedelta days) (snd item)) H).
Qed.

(** C8. On a registry (a dictionary: no id twice) the cleanup keeps the
    order of the entries and removes exactly those that are closed with a
    close time before the cutoff [now - days]; an active position stays
    whatever its age; the rest of the manager is untouched; and a second
    cleanup with the same cutoff changes nothing. *)
Theorem cleanup_removes_expired {V : Type} (days : Z) (m : Manager V) :
  NoDup (Dict.keys (active_positions m)) ->
  let cutoff := (now (env m) - timedelta days)%Z in
  (forall k p,
     In (k, p) (active_positions (cleanup_old_positions days m)) <->
     In (k, p) (active_positions m) /\ ~ Spec.closed_before cutoff p) /\
  (forall k p,
     In (k, p) (active_positions m) -> status p = ACTIVE ->
     In (k, p) (active_positions (cleanup_old_positions days m))) /\
  active_positions (cleanup_old_positions days m) =
    filter (fun item => negb (expired cutoff (snd item))) (active_positions m) /\
  env (cleanup_old_positions days m) = env m /\
  cleanup_old_positions days (cleanup_old_positions days m) = cleanup_old_positions days m.
Proof.
  intros H cutoff. rewrite (cleanup_filter days m H). cbn [active_positions env].
  fold cutoff.
  assert (Hin : forall k p,
    In (k, p) (filter (fun item => negb (expired cutoff (snd item))) (active_positions m))
    <-> In (k, p) (active_positions m) /\ ~ Spec.closed_before cutoff p).
  { intros k p. rewrite filter_In. cbn [snd]. rewrite negb_true_iff.
    rewrite <- expired_spec. destruct (expired cutoff p); intuition congruence. }
  split; [exact Hin |].
  split.
  { intros k p Hp Hs. apply Hin. split; [exact Hp |].
    intros [Hc _]. congruence. }
  split; [reflexivity |].
  split; [reflexivity |].
  rewrite cleanup_filter; cbn [active_positions env].
  - fold cutoff. f_equal. rewrite filter_twice. apply filter_ext.
    intro item. destruct (expired cutoff (snd item)); reflexivity.
  - apply nodup_filter. exact H.
Qed.

End Registry.
(** A cleanup of the sample registry after seven days. *)
Lemma cleanup_removes_expired_witness :
  NoDup (Dict.keys (PositionManager.active_positions Sample.manager1)) /\
  map fst (PositionManager.active_positions
             (PositionManager.cleanup_old_positions 7 Sample.manager1))
    = ["old_active"%string; "new_closed"%string] /\
  PositionManager.cleanup_old_positions 7
    (PositionManager.cleanup_old_positions 7 Sample.manager1)
  = PositionManager.cleanup_old_positions 7 Sample.manager1.
Proof.
  assert (H : NoDup (Dict.keys (PositionManager.active_positions Sample.manager1))).
  { cbn. repeat constructor; cbn; intuition discriminate. }
  split; [exact H |].
  split; [vm_compute; reflexivity |].
  apply (proj2 (proj2 (proj2 (proj2
    (Registry.cleanup_removes_expired 7 Sample.manager1 H))))).
Defined.

(** ** Capacity *)

Module Capacity.
Import PositionManager HarmonicTradingBot.

(** C5. When the number of active positions has reached the configured
    maximum, handling a confirmed entry signal leaves the bot exactly as it
    was: the registry keeps the same entries (hence the same ids and the same
    count), the venue is not called (no order is placed) and no message is
    sent. *)
Theorem entry_rejected_at_capacity {V : Type} {venue : Venue V} (config : Config)
  (pattern : Pattern) (zones : Zones) (confirmations : Confirmations) (bot : Bot V) :
  (MAX_POSITIONS config
   <= Z.of_nat (get_active_positions_count (position_manager bot)))%Z ->
  let bot' := _handle_entry_signal config pattern zones confirmations bot in
  bot' = bot /\
  active_positions (position_manager bot') = active_positions (position_manager bot) /\
  Dict.keys (active_positions (position_manager bot'))
    = Dict.keys (active_positions (position_manager bot)) /\
  length (active_positions (position_manager bot'))
    = length (active_positions (position_manager bot)) /\
  get_active_positions_count (position_manager bot')
    = get_active_positions_count (position_manager bot) /\
  exchange (env (position_manager bot')) = exchange (env (position_manager bot)) /\
  telegram (env (position_manager bot')) = telegram (env (position_manager bot)).
Proof.
  intros H bot'.
  assert (E : bot' = bot).
  { unfold bot', _handle_entry_signal.
    apply Z.leb_le in H. rewrite H. reflexivity. }
  rewrite E. repeat split; reflexivity.
Qed.

Lemma entry_rejected_at_capacity_witness :
  (MAX_POSITIONS Sample.config1
   <= Z.of_nat (get_active_positions_count (position_manager Sample.bot1)))%Z /\
  _handle_entry_signal Sample.config1 Sample.pattern3 Sample.zones3
    Sample.confirmations3 Sample.bot1 = Sample.bot1.
Proof.
  assert (H : (MAX_POSITIONS Sample.config1
               <= Z.of_nat (get_active_positions_count (position_manager Sample.bot1)))%Z).
  { vm_compute. discriminate. }
  split; [exact H |].
  apply (proj1 (entry_rejected_at_capacity Sample.config1 Sample.pattern3 Sample.zones3
                  Sample.confirmations3 Sample.bot1 H)).
Defined.

(** Below the maximum the same signal opens a position: the registry gains
    the new id and the venue holds the stop and the three legs. *)
Example entry_accepted_below_capacity :
  let bot' :=
    _handle_entry_signal Sample.config3 Sample.pattern3 Sample.zones3
      Sample.confirmations3 Sample.bot1 in
  Dict.keys (active_positions (position_manager bot'))
    = ["old_active"; "old_closed"; "new_closed"; "butterfly_1000000"]%string /\
  PaperVenue.resting (exchange (env (position_manager bot')))
    = ["11"; "12"; "13"; "14"]%string.
Proof. vm_compute. split; reflexivity. Qed.

End Capacity.
(** ** Monitoring *)

Module Monitoring.
Import PositionManager.

Section WithVenue.
Context {V : Type} {venue : Venue V}.

(** *** The clock is not moved by the manager *)

Lemma call_now {A : Type} (op : M V A) (e : Env V) : now (snd (call op e)) = now e.
Proof. unfold call. destruct (op (exchange e)). reflexivity. Qed.

Lemma call_eq_now {A : Type} (op : M V A) (e e' : Env V) (r : Outcome A) :
  call op e = (r, e') -> now e' = now e.
Proof. intro H. rewrite <- (call_now op e), H. reflexivity. Qed.

Lemma cancel_legs_now (sym : string) (legs : list TpOrder) (e : Env V) :
  now (snd (cancel_legs sym legs e)) = now e.
Proof.
  revert e. induction legs as [| leg legs IH]; intro e; cbn [cancel_legs].
  - reflexivity.
  - destruct (executed leg); [apply IH |].
    unfold bind.
    destruct (call (cancel_order (tp_order_id leg) sym) e) as [[b | err] e1] eqn:E.
    + rewrite IH. apply (call_eq_now _ _ _ _ E).
    + apply (call_eq_now _ _ _ _ E).
Qed.

Lemma cancel_remaining_now (p : Position) (e : Env V) :
  now (_cancel_remaining_orders p e) = now e.
Proof.
  unfold _cancel_remaining_orders, try_except, bind.
  pose proof (cancel_legs_now (symbol p) (tp_orders p) e) as H.
  destruct (cancel_legs (symbol p) (tp_orders p) e) as [[[] | err] e1];
    cbn [snd] in H |- *; [| exact H].
  destruct (id_truthy (stop_order_id p)); [| exact H].
  destruct (call (cancel_order (stop_order_id p) (symbol p)) e1) as [[b | err] e2] eqn:E;
    cbn [snd ret]; rewrite (call_eq_now _ _ _ _ E); exact H.
Qed.

Lemma check_take_profits_now (p : Position) (ids : list string) (price : Q)
  (legs : list TpOrder) (e : Env V) :
  now (snd (check_take_profits p ids price legs e)) = now e.
Proof.
  revert e. induction legs as [| leg legs IH]; intro e; cbn [check_take_profits].
  - reflexivity.
  - destruct (not_in (tp_order_id leg) ids).
    + cbn [_handle_take_profit_hit].
      match goal with |- context [check_take_profits p ids price legs ?e1] =>
        specialize (IH e1); destruct (check_take_profits p ids price legs e1) end.
      cbn [snd] in *. exact IH.
    + specialize (IH e). destruct (check_take_profits p ids price legs e).
      cbn [snd] in *. exact IH.
Qed.

Lemma check_status_now (p : Position) (e : Env V) :
  now (snd (_check_position_status p e)) = now e.
Proof.
  unfold _check_position_status, bind.
  destruct (call (get_current_price (symbol p)) e) as [[price | err] e1] eqn:E1;
    [| apply (call_eq_now _ _ _ _ E1)].
  destruct (call (get_open_orders (symbol p)) e1) as [[orders | err] e2] eqn:E2;
    [| cbn [snd]; rewrite (call_eq_now _ _ _ _ E2); apply (call_eq_now _ _ _ _ E1)].
  assert (H2 : now e2 = now e).
  { rewrite (call_eq_now _ _ _ _ E2). apply (call_eq_now _ _ _ _ E1). }
  destruct (order_ids orders) as [ids | err]; [| exact H2].
  pose proof (check_take_profits_now p ids price (tp_orders p) e2) as H3.
  destruct (check_take_profits p ids price (tp_orders p) e2) as [legs e3].
  cbn [snd] in H3.
  destruct (id_truthy _ && not_in _ ids); cbn [snd]; [| congruence].
  unfold _handle_stop_loss_hit. cbn [snd].
  rewrite cancel_remaining_now. cbn [send now]. congruence.
Qed.

(** *** One position *)

Lemma monitor_position_ok (k : string) (p p' : Position) (e e' : Env V) :
  _check_position_status p e = (Ok p', e') ->
  monitor_position (k, p) e = ((k, p'), e').
Proof.
  intro H. unfold monitor_position, try_except, bind, _update_trailing_stop.
  cbn [fst snd]. rewrite H. reflexivity.
Qed.

Lemma monitor_position_raise (k : string) (p : Position) (e e' : Env V) (err : string) :
  _check_position_status p e = (Raise err, e') ->
  monitor_position (k, p) e = ((k, p), e').
Proof.
  intro H. unfold monitor_position, try_except, bind. cbn [fst snd]. rewrite H.
  reflexivity.
Qed.

Lemma monitor_position_now (item : string * Position) (e : Env V) :
  now (snd (monitor_position item e)) = now e.
Proof.
  destruct item as [k p].
  pose proof (check_status_now p e) as H.
  destruct (_check_position_status p e) as [[p' | err] e'] eqn:E; cbn [snd] in H.
  - rewrite (monitor_position_ok k _ _ _ _ E). exact H.
  - rewrite (monitor_position_raise k _ _ _ _ E). exact H.
Qed.

Lemma monitor_position_key (item : string * Position) (e : Env V) :
  fst (fst (monitor_position item e)) = fst item.
Proof.
  destruct item as [k p].
  destruct (_check_position_status p e) as [[p' | err] e'] eqn:E.
  - rewrite (monitor_position_ok k _ _ _ _ E). reflexivity.
  - rewrite (monitor_position_raise k _ _ _ _ E). reflexivity.
Qed.

(** *** The pass *)

Lemma monitor_items_now (items : list (string * Position)) (e : Env V) :
  now (snd (monitor_items items e)) = now e.
Proof.
  revert e. induction items as [| item items IH]; intro e; cbn [monitor_items].
  - reflexivity.
  - pose proof (monitor_position_now item e) as H1.
    destruct (monitor_position item e) as [item' e1]. cbn [snd] in H1.
    specialize (IH e1). destruct (monitor_items items e1) as [rest' e2].
    cbn [snd] in *. congruence.
Qed.

(** Position [i] is processed in the environment left by the positions
    before it, whatever happened to them. *)
Lemma monitor_items_nth (items : list (string * Position)) :
  forall (e : Env V) (i : nat) (item : string * Position),
    nth_error items i = Some item ->
    nth_error (fst (monitor_items items e)) i =
    Some (fst (monitor_position item (snd (monitor_items (firstn i items) e)))).
Proof.
  induction items as [| x items IH]; intros e i item H.
  - destruct i; discriminate.
  - destruct i as [| i]; cbn [nth_error firstn monitor_items] in *.
    + injection H as ->. cbn [snd].
      destruct (monitor_position item e) as [item' e1].
      destruct (monitor_items items e1) as [rest' e2]. reflexivity.
    + destruct (monitor_position x e) as [x' e1].
      specialize (IH e1 i item H).
      destruct (monitor_items items e1) as [rest' e2].
      destruct (monitor_items (firstn i items) e1) as [pre' e3].
      cbn [fst snd nth_error] in *. exact IH.
Qed.

Lemma monitor_items_keys (items : list (string * Position)) (e : Env V) :
  Dict.keys (fst (monitor_items items e)) = Dict.keys items.
Proof.
  unfold Dict.keys. revert e.
  induction items as [| x items IH]; intro e; cbn [monitor_items]; [reflexivity |].
  pose proof (monitor_position_key x e) as Hk.
  destruct (monitor_position x e) as [x' e1].
  specialize (IH e1). destruct (monitor_items items e1) as [rest' e2].
  cbn [fst map] in *. congruence.
Qed.

(** *** Cancelling what is left *)

Lemma cancel_legs_requests (sym : string) (legs : list TpOrder) (e : Env V) :
  (forall oid s v, exists b v', cancel_order oid s v = (Ok b, v')) ->
  cancel_legs sym legs e =
  (Ok tt, mkEnv (Spec.after_cancels sym (Spec.pending_ids legs) (exchange e))
                (telegram e) (now e)).
Proof.
  intro Hc. revert e.
  induction legs as [| leg legs IH]; intro e;
    cbn [cancel_legs Spec.pending_ids filter map].
  - destruct e; reflexivity.
  - destruct (executed leg); cbn [negb]; [apply IH |].
    unfold bind, call.
    destruct (Hc (tp_order_id leg) sym (exchange e)) as [b [v' E]].
    rewrite E. rewrite IH. cbn [exchange telegram now map].
    unfold Spec.after_cancels. cbn [fold_left]. rewrite E. reflexivity.
Qed.

Lemma cancel_remaining_requests (p : Position) (sid : string) (e : Env V) :
  (forall oid s v, exists b v', cancel_order oid s v = (Ok b, v')) ->
  stop_order_id p = Some sid -> sid <> ""%string ->
  _cancel_remaining_orders p e =
  mkEnv (Spec.after_cancels (symbol p)
           (Spec.pending_ids (tp_orders p) ++ [Some sid]) (exchange e))
        (telegram e) (now e).
Proof.
  intros Hc Hs Hne.
  unfold _cancel_remaining_orders, try_except, bind.
  rewrite (cancel_legs_requests _ _ _ Hc). rewrite Hs.
  assert (Ht : id_truthy (Some sid) = true).
  { unfold id_truthy. apply negb_true_iff. apply String.eqb_neq. exact Hne. }
  rewrite Ht. unfold call. cbn [exchange telegram now].
  destruct (Hc (Some sid) (symbol p)
              (Spec.after_cancels (symbol p) (Spec.pending_ids (tp_orders p)) (exchange e)))
    as [b [v' E]].
  rewrite E. cbn [snd ret].
  unfold Spec.after_cancels. rewrite fold_left_app. cbn [fold_left].
  unfold Spec.after_cancels in E. rewrite E. reflexivity.
Qed.

Lemma not_in_spec (sid : string) (ids : list string) :
  ~ In sid ids -> not_in (Some sid) ids = true.
Proof.
  intro H. unfold not_in. apply negb_true_iff.
  destruct (existsb (String.eqb sid) ids) eqn:E; [| reflexivity].
  apply existsb_exists in E. destruct E as [x [Hx Heq]].
  apply String.eqb_eq in Heq. subst x. contradiction.
Qed.

(** The status check of a position whose stop order has left the book. *)
Lemma check_status_stopped (p : Position) (e e1 e2 e3 : Env V) (price : Q)
  (orders : list Order) (ids : list string) (legs : list TpOrder) (sid : string) :
  call (get_current_price (symbol p)) e = (Ok price, e1) ->
  call (get_open_orders (symbol p)) e1 = (Ok orders, e2) ->
  order_ids orders = Ok ids ->
  check_take_profits p ids price (tp_orders p) e2 = (legs, e3) ->
  stop_order_id p = Some sid -> sid <> ""%string -> ~ In sid ids ->
  _check_position_status p e =
  (Ok (close_position (with_tp_orders p legs) "STOP_LOSS" (now e3)),
   _cancel_remaining_orders
     (close_position (with_tp_orders p legs) "STOP_LOSS" (now e3))
     (send
        (notify_trade_exit (symbol p) (position_direction p) (position_entry_price p)
           (stop_loss p) (position_size p)
           (pnl_of (position_direction p) (position_entry_price p) (stop_loss p)
              (position_size p))
           stop_loss_reached)
        e3)).
Proof.
  intros E1 E2 E3 E4 Hs Hne Hnot.
  unfold _check_position_status, bind. rewrite E1, E2, E3, E4.
  cbn [with_tp_orders stop_order_id]. rewrite Hs.
  assert (Ht : id_truthy (Some sid) = true).
  { unfold id_truthy. apply negb_true_iff. apply String.eqb_neq. exact Hne. }
  rewrite Ht, (not_in_spec _ _ Hnot). cbn [andb].
  unfold _handle_stop_loss_hit. reflexivity.
Qed.

(** *** Messages are only appended by [send] *)

Lemma call_eq_telegram {A : Type} (op : M V A) (e e' : Env V) (r : Outcome A) :
  call op e = (r, e') -> telegram e' = telegram e.
Proof.
  unfold call. destruct (op (exchange e)). intro H. injection H as _ <-. reflexivity.
Qed.

Lemma cancel_legs_telegram (sym : string) (legs : list TpOrder) (e : Env V) :
  telegram (snd (cancel_legs sym legs e)) = telegram e.
Proof.
  revert e. induction legs as [| leg legs IH]; intro e; cbn [cancel_legs].
  - reflexivity.
  - destruct (executed leg); [apply IH |].
    unfold bind.
    destruct (call (cancel_order (tp_order_id leg) sym) e) as [[b | err] e1] eqn:E.
    + rewrite IH. apply (call_eq_telegram _ _ _ _ E).
    + apply (call_eq_telegram _ _ _ _ E).
Qed.

Lemma cancel_remaining_telegram (p : Position) (e : Env V) :
  telegram (_cancel_remaining_orders p e) = telegram e.
Proof.
  unfold _cancel_remaining_orders, try_except, bind.
  pose proof (cancel_legs_telegram (symbol p) (tp_orders p) e) as H.
  destruct (cancel_legs (symbol p) (tp_orders p) e) as [[[] | err] e1];
    cbn [snd] in H |- *; [| exact H].
  destruct (id_truthy (stop_order_id p)); [| exact H].
  destruct (call (cancel_order (stop_order_id p) (symbol p)) e1) as [[b | err] e2] eqn:E;
    cbn [snd ret]; rewrite (call_eq_telegram _ _ _ _ E); exact H.
Qed.

(** C6. In one monitoring pass every registered position is processed, in
    registry order, in the environment left by the positions before it; an
    exception raised while one position is checked is caught there, leaves
    that position as it was, and does not stop the pass.  A position whose
    recorded stop-loss order id is not among the venue's open order ids
    becomes CLOSED with reason STOP_LOSS at the time of the pass; the exit
    message carries the PnL at the stop price over the whole position size,
    [(stop - entry) * size] for BUY and [(entry - stop) * size] for SELL; and
    one cancel request goes to the venue for every take-profit leg not marked
    executed, followed by one for the stop order (provided the venue's cancel
    call does not raise). *)
Theorem monitor_pass (m : Manager V) :
  active_positions (monitor_positions m)
    = fst (monitor_items (active_positions m) (env m)) /\
  Dict.keys (active_positions (monitor_positions m)) = Dict.keys (active_positions m) /\
  (forall i item,
     nth_error (active_positions m) i = Some item ->
     nth_error (active_positions (monitor_positions m)) i =
     Some (fst (monitor_position item
                  (snd (monitor_items (firstn i (active_positions m)) (env m)))))) /\
  (forall k p e0 e1 err,
     _check_position_status p e0 = (Raise err, e1) ->
     monitor_position (k, p) e0 = ((k, p), e1)) /\
  (forall i k p price orders ids legs sid e1 e2 e3,
     nth_error (active_positions m) i = Some (k, p) ->
     call (get_current_price (symbol p))
          (snd (monitor_items (firstn i (active_positions m)) (env m)))
       = (Ok price, e1) ->
     call (get_open_orders (symbol p)) e1 = (Ok orders, e2) ->
     order_ids orders = Ok ids ->
     check_take_profits p ids price (tp_orders p) e2 = (legs, e3) ->
     stop_order_id p = Some sid -> sid <> ""%string -> ~ In sid ids ->
     exists p' e4,
       nth_error (active_positions (monitor_positions m)) i = Some (k, p') /\
       monitor_position (k, p)
         (snd (monitor_items (firstn i (active_positions m)) (env m)))
         = ((k, p'), e4) /\
       status p' = CLOSED /\
       close_reason p' = Some "STOP_LOSS"%string /\
       close_time p' = Some (now (env m)) /\
       tp_orders p' = legs /\
       telegram e4 =
         telegram e3 ++
         [notify_trade_exit (symbol p) (position_direction p) (position_entry_price p)
            (stop_loss p) (position_size p)
            (pnl_of (position_direction p) (position_entry_price p) (stop_loss p)
               (position_size p))
            stop_loss_reached] /\
       (position_direction p = Some BUY ->
        pnl_of (position_direction p) (position_entry_price p) (stop_loss p)
          (position_size p)
        = (stop_loss p - position_entry_price p) * position_size p) /\
       (position_direction p = Some SELL ->
        pnl_of (position_direction p) (position_entry_price p) (stop_loss p)
          (position_size p)
        = (position_entry_price p - stop_loss p) * position_size p) /\
       ((forall oid s v, exists b v', cancel_order oid s v = (Ok b, v')) ->
        exchange e4 =
        Spec.after_cancels (symbol p) (Spec.pending_ids legs ++ [Some sid])
          (exchange e3))).
Proof.
  assert (Hreg : active_positions (monitor_positions m)
                 = fst (monitor_items (active_positions m) (env m))).
  { unfold monitor_positions.
    destruct (monitor_items (active_positions m) (env m)). reflexivity. }
  rewrite Hreg.
  split; [reflexivity |].
  split; [apply monitor_items_keys |].
  split; [intros i item H; apply monitor_items_nth; exact H |].
  split; [intros k p e0 e1 err H; eapply monitor_position_raise; exact H |].
  intros i k p price orders ids legs sid e1 e2 e3 Hi E1 E2 E3 E4 Hs Hne Hnot.
  set (e0 := snd (monitor_items (firstn i (active_positions m)) (env m))) in *.
  pose proof (check_status_stopped p e0 e1 e2 e3 price orders ids legs sid
                E1 E2 E3 E4 Hs Hne Hnot) as Hc.
  pose proof (monitor_position_ok k _ _ _ _ Hc) as Hm.
  assert (Hnow : now e3 = now (env m)).
  { pose proof (check_take_profits_now p ids price (tp_orders p) e2) as H3.
    rewrite E4 in H3. cbn [snd] in H3.
    rewrite H3, (call_eq_now _ _ _ _ E2), (call_eq_now _ _ _ _ E1).
    apply monitor_items_now. }
  do 2 eexists.
  split; [rewrite (monitor_items_nth _ _ _ _ Hi); fold e0; rewrite Hm; reflexivity |].
  split; [exact Hm |].
  split; [reflexivity |].
  split; [reflexivity |].
  split; [cbn [close_position close_time]; rewrite Hnow; reflexivity |].
  split; [reflexivity |].
  split; [rewrite cancel_remaining_telegram; reflexivity |].
  split; [intros ->; reflexivity |].
  split; [intros ->; reflexivity |].
  intro Hcancel.
  rewrite (cancel_remaining_requests _ sid _ Hcancel); [reflexivity | exact Hs | exact Hne].
Qed.

End WithVenue.

(** The sample pass: the first position is on an unreachable symbol and
    raises; the second, whose stop order 7 has left the book, is closed all
    the same. *)
Lemma monitor_pass_witness :
  nth_error Sample.registry2 1
    = Some ("stopped"%string,
            Sample.position_of "stopped" "BTCUSDT" ACTIVE None (Some "7"%string)
              Sample.legs2) /\
  (exists err e1,
     _check_position_status
       (Sample.position_of "lost" "DOWN" ACTIVE None (Some "5"%string) []) Sample.env2
     = (Raise err, e1)) /\
  exists p',
    nth_error (active_positions (monitor_positions (mkManager Sample.env2 Sample.registry2))) 1
      = Some ("stopped"%string, p') /\
    status p' = CLOSED /\
    close_reason p' = Some "STOP_LOSS"%string.
Proof.
  split; [reflexivity |].
  split; [do 2 eexists; vm_compute; reflexivity |].
  set (m := mkManager Sample.env2 Sample.registry2).
  set (p := Sample.position_of "stopped" "BTCUSDT" ACTIVE None (Some "7"%string)
              Sample.legs2).
  set (legs := [mkTpOrder (Some "8"%string) 60 2 1 false None;
                mkTpOrder (Some "9"%string) 70 2 2 true (Some 100)]).
  set (e3 := mkEnv (PaperVenue.mk ["8"%string] 10 1000 100)
               [notify_trade_exit "BTCUSDT" (Some SELL) 80 70 2
                  (pnl_of (Some SELL) 80 70 2) (take_profit_reached 2)]
               5000).
  assert (Hi : nth_error (active_positions m) 1 = Some ("stopped"%string, p))
    by reflexivity.
  assert (E1 : call (get_current_price (symbol p))
                 (snd (monitor_items (firstn 1 (active_positions m)) (env m)))
               = (Ok 100, Sample.env2)) by (vm_compute; reflexivity).
  assert (E2 : call (get_open_orders (symbol p)) Sample.env2
               = (Ok [mkOrder (Some "8"%string)], Sample.env2))
    by (vm_compute; reflexivity).
  assert (E3 : order_ids [mkOrder (Some "8"%string)] = Ok ["8"%string])
    by reflexivity.
  assert (E4 : check_take_profits p ["8"%string] 100 (tp_orders p) Sample.env2
               = (legs, e3)) by (vm_compute; reflexivity).
  assert (Hs : stop_order_id p = Some "7"%string) by reflexivity.
  assert (Hne : "7"%string <> ""%string) by discriminate.
  assert (Hnot : ~ In "7"%string ["8"%string]).
  { cbn [In]. intros [H | []]. discriminate. }
  destruct (proj2 (proj2 (proj2 (proj2 (monitor_pass m))))
              1%nat "stopped"%string p 100 [mkOrder (Some "8"%string)] ["8"%string]
              legs "7"%string Sample.env2 Sample.env2 e3
              Hi E1 E2 E3 E4 Hs Hne Hnot)
    as (p' & e4 & H1 & _ & H2 & H3 & _).
  exists p'. split; [exact H1 | split; [exact H2 | exact H3]].
Defined.

(** What the sample pass leaves behind: the pending leg 8 is withdrawn and
    both exits are announced. *)
Example monitor_pass_sample :
  env (monitor_positions (mkManager Sample.env2 Sample.registry2))
  = mkEnv (PaperVenue.mk [] 10 1000 100)
      [notify_trade_exit "BTCUSDT" (Some SELL) 80 70 2 ((80 - 70) * 2)
         (take_profit_reached 2);
       notify_trade_exit "BTCUSDT" (Some SELL) 80 101 4 ((80 - 101) * 4)
         stop_loss_reached]
      5000.
Proof. reflexivity. Qed.

End Monitoring.
